(** * The request/response data model of the framework, and its status/body coupling

    A shallow embedding of [lib/response.js], of the request view and the
    context (error handling) and of [Application.createContext], followed by
    the properties of the specification that concern them, and by properties
    of the default response, of the header store and of the application's
    [use] and [onerror].

    The transport objects ([http.IncomingMessage], [http.ServerResponse]) and
    the packages the code calls ([statuses], [mime-types], [escape-html],
    [accepts], [fresh], [vary], [Buffer.byteLength], [util.format]) are not part
    of the repository: they are the fields of the record [Host] (and, for
    [JSON] and [koa-is-json], of the record [Json]), and every definition is
    parametric in it. *)

From Stdlib Require Import ZArith String Ascii List Bool Lia.
From Stdlib Require Strings.Byte.
From stdpp Require Import base strings gmap pretty.

Open Scope string_scope.
Open Scope Z_scope.

(** ** JavaScript values *)

(** A number: an integer value, or one of the values that is never the key of
    a status code.  [Fractional] carries the rendering [String(x)] of a finite
    number that is not an integer. *)
Inductive Number :=
| Int (z : Z)
| NaN
| Infinity (negative : bool)
| Fractional (repr : string).

(** The values a status, a body or a field of an error object can hold.
    Buffers, streams and other objects are references: [ref] is their identity. *)
Inductive JsVal :=
| VUndefined
| VNull
| VBool (b : bool)
| VNum (n : Number)
| VStr (s : string)
| VBuffer (ref : nat) (data : list Byte.byte)
| VStream (ref : nat)
| VObject (ref : nat).

(** [if (v)] *)
Definition truthy (v : JsVal) : bool :=
  match v with
  | VUndefined | VNull => false
  | VBool b => b
  | VNum (Int z) => negb (z =? 0)
  | VNum NaN => false
  | VNum _ => true
  | VStr s => negb (String.eqb s "")
  | VBuffer _ _ | VStream _ | VObject _ => true
  end.

(** [null == v] *)
Definition nullish (v : JsVal) : bool :=
  match v with
  | VUndefined | VNull => true
  | _ => false
  end.

Definition number_eq (a b : Number) : bool :=
  match a, b with
  | Int x, Int y => x =? y
  | Infinity x, Infinity y => Bool.eqb x y
  | Fractional x, Fractional y => String.eqb x y
  | _, _ => false
  end.

(** [a === b] *)
Definition strict_eq (a b : JsVal) : bool :=
  match a, b with
  | VUndefined, VUndefined => true
  | VNull, VNull => true
  | VBool x, VBool y => Bool.eqb x y
  | VNum x, VNum y => number_eq x y
  | VStr x, VStr y => String.eqb x y
  | VBuffer x _, VBuffer y _ => Nat.eqb x y
  | VStream x, VStream y => Nat.eqb x y
  | VObject x, VObject y => Nat.eqb x y
  | _, _ => false
  end.

(** [typeof v === 'number'] *)
Definition is_number (v : JsVal) : bool :=
  match v with
  | VNum _ => true
  | _ => false
  end.

(** [v instanceof Stream] *)
Definition instanceof_Stream (v : JsVal) : bool :=
  match v with
  | VStream _ => true
  | _ => false
  end.

(** ** Strings *)

(** A string is a sequence of code units below 256. *)

Definition lower_ascii (c : ascii) : ascii :=
  let n := N_of_ascii c in
  if ((65 <=? n) && (n <=? 90))%N then ascii_of_N (n + 32)
  else if ((192 <=? n) && (n <=? 222) && negb (n =? 215))%N then ascii_of_N (n + 32)
  else c.

(** [s.toLowerCase()] *)
Fixpoint toLowerCase (s : string) : string :=
  match s with
  | EmptyString => EmptyString
  | String c r => String (lower_ascii c) (toLowerCase r)
  end.

(** The class [\s] of regular expressions, on code units below 256. *)
Definition is_space (c : ascii) : bool :=
  let n := N_of_ascii c in
  ((9 <=? n) && (n <=? 13) || (n =? 32) || (n =? 160))%N.

Definition is_char (k : N) (c : ascii) : bool := (N_of_ascii c =? k)%N.

(** [/^\s*</.test(s)] *)
Fixpoint looks_like_markup (s : string) : bool :=
  match s with
  | EmptyString => false
  | String c r =>
      if is_char 60 c then true
      else if is_space c then looks_like_markup r
      else false
  end.

(** [s.split(/\s*,\s*/)], for a non-empty [s].  [tok] is the piece being read
    and [ws] the run of white space just read, both reversed; [skip] holds
    while the white space that follows a comma is consumed.  A run of white
    space belongs to the separator when a comma follows it, and to the piece
    otherwise. *)
Fixpoint split_go (s : string) (tok ws : list ascii) (skip : bool) : list string :=
  match s with
  | EmptyString => [string_of_list_ascii (rev (ws ++ tok))]
  | String c r =>
      if is_char 44 c then
        string_of_list_ascii (rev tok) :: split_go r [] [] true
      else if is_space c then
        if skip then split_go r tok ws true
        else split_go r tok (c :: ws) false
      else split_go r (c :: ws ++ tok) [] false
  end.

Definition split_commas (s : string) : list string := split_go s [] [] false.

(** ** Header values *)

(** What [res.getHeaders()] holds for a field. *)
Inductive HeaderVal :=
| HStr (s : string)
| HList (l : list string).

(** A string or a number handed to [set]; the number is an integer below
    [10^21] in magnitude, which [String] renders in plain decimal digits. *)
Inductive Scalar :=
| SStr (s : string)
| SNum (z : Z).

(** The second argument of [set] and [append]: one value or an array. *)
Inductive HeaderArg :=
| One (x : Scalar)
| Many (xs : list Scalar).

(** [String(x)] *)
Definition String_ (x : Scalar) : string :=
  match x with
  | SStr s => s
  | SNum z => pretty z
  end.

Definition truthy_header (o : option HeaderVal) : bool :=
  match o with
  | None => false
  | Some (HStr s) => negb (String.eqb s "")
  | Some (HList _) => true
  end.

(** What [set] stores for an argument. *)
Definition stored (val : HeaderArg) : HeaderVal :=
  match val with
  | Many xs => HList (map String_ xs)
  | One x => HStr (String_ x)
  end.

(** The header names and values the transport accepts.  A name is a token
    of HTTP: one character or more among the letters, the digits and
    [!#$%&'*+-.^_`|~].  A value holds no control character but the tab
    (the code units 0 to 8, 10 to 31 and 127 are refused); an array is
    tested as its elements joined by commas. *)
Definition is_token_char (c : ascii) : bool :=
  let n := N_of_ascii c in
  ((48 <=? n) && (n <=? 57) || (65 <=? n) && (n <=? 90) || (94 <=? n) && (n <=? 122)
   || existsb (N.eqb n) [33; 35; 36; 37; 38; 39; 42; 43; 45; 46; 124; 126])%N.

Definition valid_name (field : string) : bool :=
  negb (String.eqb field "") && forallb is_token_char (list_ascii_of_string field).

Definition is_content_char (c : ascii) : bool :=
  let n := N_of_ascii c in
  ((n =? 9) || (32 <=? n) && negb (n =? 127))%N.

Definition valid_text (s : string) : bool :=
  forallb is_content_char (list_ascii_of_string s).

Definition valid_value (val : HeaderVal) : bool :=
  match val with
  | HStr s => valid_text s
  | HList l => forallb valid_text l
  end.

(** An object of header fields that [set] accepts as a whole. *)
Definition valid_fields (fields : list (string * HeaderArg)) : bool :=
  forallb (fun kv => valid_name (fst kv) && valid_value (stored (snd kv))) fields.

(** ** Errors *)

(** An exception of the language, with the format string and the argument
    given to [util.format]. *)
Inductive Exn :=
| TypeError (fmt : string) (arg : JsVal)
| RangeError (fmt : string) (arg : JsVal).

(** The code of an error object: absent, a string or a number. *)
Inductive ErrCode :=
| CodeNone
| CodeStr (s : string)
| CodeNum (n : Number).

(** An error object as [onerror] reads it. *)
Record ErrorObj := mkError {
  err_message : string;
  err_code : ErrCode;
  err_status : JsVal;
  err_expose : JsVal;
  err_headers : list (string * HeaderArg);
  err_headerSent : bool
}.

(** The argument of [onerror]. *)
Inductive Thrown :=
| ThrownError (e : ErrorObj)
| ThrownValue (v : JsVal).

(** ** The transport objects *)

Record IncomingMessage := mkReq {
  method : string;
  req_headers : gmap string string;
  httpVersionMajor : Z;
  remoteAddress : JsVal
}.

(** [headerSent] and [status_prop] are the properties [headerSent] and
    [status] that [context.onerror] and [request.fresh] read on the transport
    response: Node's [ServerResponse] defines neither, and no code of the
    repository writes them, so they are [false] and [None] unless the
    transport differs.  [socket] is [None] without a socket, and holds
    [socket.writable] otherwise; [ended] lists the payloads given to [end]. *)
Record ServerResponse := mkRes {
  headerSent : bool;
  headersSent : bool;
  finished : bool;
  socket : option bool;
  statusCode : Number;
  statusMessage : JsVal;
  res_headers : gmap string HeaderVal;
  status_prop : option Z;
  ended : list JsVal
}.

(** One context: the transport pair, the fields of the response view, the
    application's [proxy] setting, and the effects on collaborators (error
    events emitted, streams destroyed, streams watched). *)
Record State := mkState {
  req : IncomingMessage;
  res : ServerResponse;
  _explicitStatus : bool;
  _body : JsVal;
  proxy : bool;
  emitted : list ErrorObj;
  destroyed : list nat;
  onFinished : list nat;
  injected : list nat
}.

(** ** The collaborators *)

Record Host := mkHost {
  (** [statuses[code]]: the reason phrase of a registered code *)
  statuses : Z -> option string;
  (** [statuses.empty[code]] *)
  statuses_empty : Z -> bool;
  (** [statuses.redirect[code]] *)
  statuses_redirect : Z -> bool;
  (** [contentType(type)] of mime-types; [None] is its [false] *)
  contentType : string -> option string;
  (** [Buffer.byteLength(s)] *)
  byteLength : string -> Z;
  (** [escape(s)] of escape-html *)
  escape : string -> string;
  (** [accepts(req).types(type)], as a condition *)
  accepts_types : gmap string string -> string -> bool;
  (** [fresh(reqHeaders, resHeaders)]; [None] is an [undefined] argument *)
  fresh_lib : option (gmap string string) -> option (gmap string HeaderVal) -> Exn + bool;
  (** [vary(res, field)], on the headers of [res] *)
  vary_lib : gmap string HeaderVal -> string -> Exn + gmap string HeaderVal;
  (** [util.format(fmt, v)] *)
  format : string -> JsVal -> string;
  (** mime-types answers with the given type or with one of its table,
      completed with a charset of its table: from a type without control
      characters it makes a content type without any *)
  contentType_valid :
    forall type t, valid_text type = true -> contentType type = Some t ->
                   valid_text t = true
}.

(** ** Computations: state passing, with exceptions *)

(** An exception carries the state it was raised in.  [OutOfFuel] is the
    result of a call nested deeper than the bound given to the setters. *)
Inductive Outcome (A : Type) :=
| Ok (a : A) (s : State)
| Throw (e : Exn) (s : State)
| OutOfFuel.

Arguments Ok {A} a s.
Arguments Throw {A} e s.
Arguments OutOfFuel {A}.

Definition M (A : Type) : Type := State -> Outcome A.

Definition ret {A} (a : A) : M A := fun s => Ok a s.

Definition bind {A B} (m : M A) (k : A -> M B) : M B :=
  fun s =>
    match m s with
    | Ok a s' => k a s'
    | Throw e s' => Throw e s'
    | OutOfFuel => OutOfFuel
    end.

Definition throw {A} (e : Exn) : M A := fun s => Throw e s.

Definition gets {A} (f : State -> A) : M A := fun s => Ok (f s) s.

Definition modify (f : State -> State) : M unit := fun s => Ok tt (f s).

Definition when (b : bool) (m : M unit) : M unit := if b then m else ret tt.

Declare Scope js_scope.
Delimit Scope js_scope with js.
Notation "x <- m ;; k" := (bind m (fun x => k))
  (at level 100, m at next level, right associativity) : js_scope.
Notation "m ;; k" := (bind m (fun _ => k))
  (at level 100, right associativity) : js_scope.
Open Scope js_scope.

(** [for (const x of l) f(x)] *)
Fixpoint for_each {A} (l : list A) (f : A -> M unit) : M unit :=
  match l with
  | [] => ret tt
  | x :: r => f x ;; for_each r f
  end.

(** Field updates. *)

Definition with_res (f : ServerResponse -> ServerResponse) (s : State) : State :=
  mkState (req s) (f (res s)) (_explicitStatus s) (_body s) (proxy s)
          (emitted s) (destroyed s) (onFinished s) (injected s).

Definition with_explicitStatus (b : bool) (s : State) : State :=
  mkState (req s) (res s) b (_body s) (proxy s)
          (emitted s) (destroyed s) (onFinished s) (injected s).

Definition with_body (v : JsVal) (s : State) : State :=
  mkState (req s) (res s) (_explicitStatus s) v (proxy s)
          (emitted s) (destroyed s) (onFinished s) (injected s).

Definition with_emitted (e : ErrorObj) (s : State) : State :=
  mkState (req s) (res s) (_explicitStatus s) (_body s) (proxy s)
          (emitted s ++ [e]) (destroyed s) (onFinished s) (injected s).

Definition with_destroyed (i : nat) (s : State) : State :=
  mkState (req s) (res s) (_explicitStatus s) (_body s) (proxy s)
          (emitted s) (destroyed s ++ [i]) (onFinished s) (injected s).

Definition with_onFinished (i : nat) (s : State) : State :=
  mkState (req s) (res s) (_explicitStatus s) (_body s) (proxy s)
          (emitted s) (destroyed s) (onFinished s ++ [i]) (injected s).

Definition with_injected (i : nat) (s : State) : State :=
  mkState (req s) (res s) (_explicitStatus s) (_body s) (proxy s)
          (emitted s) (destroyed s) (onFinished s) (injected s ++ [i]).

Definition with_headers (f : gmap string HeaderVal -> gmap string HeaderVal)
    (r : ServerResponse) : ServerResponse :=
  mkRes (headerSent r) (headersSent r) (finished r) (socket r) (statusCode r)
        (statusMessage r) (f (res_headers r)) (status_prop r) (ended r).

Definition with_statusCode (n : Number) (r : ServerResponse) : ServerResponse :=
  mkRes (headerSent r) (headersSent r) (finished r) (socket r) n
        (statusMessage r) (res_headers r) (status_prop r) (ended r).

Definition with_statusMessage (m : JsVal) (r : ServerResponse) : ServerResponse :=
  mkRes (headerSent r) (headersSent r) (finished r) (socket r) (statusCode r)
        m (res_headers r) (status_prop r) (ended r).

(** [res.setHeader(field, val)]: the transport refuses a name that is no
    token and a value with a control character, in this order, and keeps
    header names in lower case.  (It refuses every call once the headers are
    sent; the one caller, [set], returns before the call then.) *)
Definition setHeader (field : string) (val : HeaderVal) : M unit :=
  if negb (valid_name field) then
    throw (TypeError "Header name must be a valid HTTP token [%s]" (VStr field))
  else if negb (valid_value val) then
    throw (TypeError "Invalid character in header content [%s]" (VStr field))
  else modify (with_res (with_headers (insert (toLowerCase field) val))).

(** [res.removeHeader(field)] *)
Definition removeHeader (field : string) : M unit :=
  modify (with_res (with_headers (delete (toLowerCase field)))).

(** What [res.end] takes: a string, a buffer, or a falsy value, which it
    reads as no data. *)
Definition is_chunk (payload : JsVal) : bool :=
  match payload with
  | VStr _ | VBuffer _ _ | VUndefined | VNull => true
  | VBool b => negb b
  | VNum n => negb (truthy (VNum n))
  | VStream _ | VObject _ => false
  end.

(** [res.end(payload)]: the payload is written and the response is complete,
    its headers sent.  Any other value than those is refused. *)
Definition end_ (payload : JsVal) : M unit :=
  if is_chunk payload then
    modify (with_res (fun r =>
      mkRes (headerSent r) true true (socket r) (statusCode r)
            (statusMessage r) (res_headers r) (status_prop r) (ended r ++ [payload])))
  else throw (TypeError "First argument must be a string or Buffer" payload).

(** ** The status registry, as the code indexes it *)

Section Registry.
Context (H : Host).

(** [statuses[n]]: a number that is not an integer is the key of no entry. *)
Definition statuses_at (n : Number) : JsVal :=
  match n with
  | Int z =>
      match statuses H z with
      | Some phrase => VStr phrase
      | None => VUndefined
      end
  | _ => VUndefined
  end.

(** [statuses.empty[n]] *)
Definition empty_at (n : Number) : bool :=
  match n with
  | Int z => statuses_empty H z
  | _ => false
  end.

(** [statuses.redirect[n]] *)
Definition redirect_at (n : Number) : bool :=
  match n with
  | Int z => statuses_redirect H z
  | _ => false
  end.
End Registry.

(** ** The request view *)

Module Request.
Section View.
Context (H : Host).

(** [a || b], on strings *)
Definition or_else (a b : string) : string :=
  if String.eqb a "" then b else a.

(** [headers[name]], [undefined] read as the empty string *)
Definition header_at (name : string) (s : State) : string :=
  default "" (req_headers (req s) !! name).

Definition get (field : string) : M string :=
  gets (fun s =>
    let field := toLowerCase field in
    if String.eqb field "referer" || String.eqb field "referrer" then
      or_else (header_at "referrer" s) (or_else (header_at "referer" s) "")
    else or_else (header_at field s) "").

Definition ips : M (list JsVal) :=
  trusted <- gets proxy ;;
  if negb trusted then
    addr <- gets (fun s => remoteAddress (req s)) ;;
    ret [addr]
  else
    forwarded <- get "X-Forwarded-For" ;;
    ret (if negb (String.eqb forwarded "")
         then map VStr (split_commas forwarded)
         else []).

(** [this.header]: the view defines [headers] and no property [header], on
    the request as on the response, so the read gives [undefined]. *)
Definition header {A} : M (option A) := ret None.

(** [(status >= 200 && status < 300) || 304 === status], for the value of
    [this.res.status]; [undefined] compares false with every number. *)
Definition in_fresh_range (status : option Z) : bool :=
  match status with
  | Some z => (200 <=? z) && (z <? 300) || (304 =? z)
  | None => false
  end.

Definition fresh : M bool :=
  method <- gets (fun s => method (req s)) ;;
  status <- gets (fun s => status_prop (res s)) ;;
  if negb (String.eqb "GET" method) && negb (String.eqb "HEAD" method) then ret false
  else if in_fresh_range status then
    reqh <- header ;;
    resh <- header ;;
    match fresh_lib H reqh resh with
    | inl e => throw e
    | inr b => ret b
    end
  else ret false.
End View.
End Request.

(** ** The response view *)

Module Response.
Section View.
Context (H : Host).

(** The bound on nested setter calls: [set body] calls [set status], which
    calls [set body] with [null], which calls no setter again. *)
Definition call_depth : nat := 3.

Definition writable : M bool :=
  gets (fun s =>
    if finished (res s) then false
    else match socket (res s) with
         | Some w => w
         | None => true
         end).

Definition headers : M (gmap string HeaderVal) :=
  gets (fun s => res_headers (res s)).

Definition get_headersSent : M bool :=
  gets (fun s => headersSent (res s)).

(** [flushHeaders()]: the transport writes the headers out.  (The status
    message it fills in when none was set is not recorded.) *)
Definition flushHeaders : M unit :=
  modify (with_res (fun r =>
    mkRes (headerSent r) true (finished r) (socket r) (statusCode r)
          (statusMessage r) (res_headers r) (status_prop r) (ended r))).

(** [this.headers[field.toLowerCase()] || ''] *)
Definition get (field : string) : M HeaderVal :=
  hs <- headers ;;
  let v := hs !! toLowerCase field in
  ret (if truthy_header v then default (HStr "") v else HStr "").

(** [set(field, val)] *)
Definition set (field : string) (val : HeaderArg) : M unit :=
  sent <- get_headersSent ;;
  if sent then ret tt
  else
    let val :=
      match val with
      | Many xs => HList (map String_ xs)
      | One x => HStr (String_ x)
      end in
    setHeader field val.

(** [set(fields)], with an object of header fields; [undefined] has none. *)
Definition set_fields (fields : list (string * HeaderArg)) : M unit :=
  sent <- get_headersSent ;;
  if sent then ret tt
  else for_each fields (fun kv => set (fst kv) (snd kv)).

(** [a.concat(val)] *)
Definition concat (a : list Scalar) (val : HeaderArg) : list Scalar :=
  match val with
  | One x => a ++ [x]
  | Many xs => a ++ xs
  end.

Definition append (field : string) (val : HeaderArg) : M unit :=
  sent <- get_headersSent ;;
  if sent then ret tt
  else
    original <- get field ;;
    let val :=
      if truthy_header (Some original) then
        match original with
        | HList l => Many (concat (map SStr l) val)
        | HStr o => Many (concat [SStr o] val)
        end
      else val in
    set field val.

Definition remove (field : string) : M unit :=
  sent <- get_headersSent ;;
  if sent then ret tt else removeHeader field.

Definition vary (field : string) : M unit :=
  sent <- get_headersSent ;;
  if sent then ret tt
  else
    hs <- headers ;;
    match vary_lib H hs field with
    | inl e => throw e
    | inr hs' => modify (with_res (with_headers (fun _ => hs')))
    end.

(** [set length(n)] *)
Definition set_length (n : Z) : M unit :=
  set "Content-Length" (One (SNum n)).

(** [set type(type)] *)
Definition set_type (type : string) : M unit :=
  match contentType H type with
  | Some type =>
      if negb (String.eqb type "") then set "Content-Type" (One (SStr type))
      else remove "Content-Type"
  | None => remove "Content-Type"
  end.

(** [set message(msg)] *)
Definition set_message (msg : JsVal) : M unit :=
  modify (with_res (with_statusMessage msg)).

(** [get status()] *)
Definition status : M Number :=
  gets (fun s => statusCode (res s)).

(** [get body()] *)
Definition body : M JsVal := gets _body.

(** [destroy(stream)] *)
Definition destroy (v : JsVal) : M unit :=
  match v with
  | VStream i => modify (with_destroyed i)
  | _ => ret tt
  end.

(** [set status(code)] and [set body(val)] call each other. *)
Fixpoint set_status_fuel (fuel : nat) (code : JsVal) {struct fuel} : M unit :=
  match fuel with
  | O => fun _ => OutOfFuel
  | S fuel =>
      sent <- get_headersSent ;;
      if sent then ret tt
      else
        match code with
        | VNum n =>
            if negb (truthy (statuses_at H n)) then
              throw (RangeError "invalid status code: %d" code)
            else
              modify (with_explicitStatus true) ;;
              modify (with_res (with_statusCode n)) ;;
              major <- gets (fun s => httpVersionMajor (req s)) ;;
              when (major <? 2) (set_message (statuses_at H n)) ;;
              b <- body ;;
              when (truthy b && empty_at H n) (set_body_fuel fuel VNull)
        | _ => throw (TypeError "non-numeric status code: %j" code)
        end
  end

with set_body_fuel (fuel : nat) (val : JsVal) {struct fuel} : M unit :=
  match fuel with
  | O => fun _ => OutOfFuel
  | S fuel =>
      original <- gets _body ;;
      when (negb (strict_eq original val) && instanceof_Stream original)
           (destroy original) ;;
      modify (with_body val) ;;
      if nullish val then
        st <- status ;;
        when (negb (empty_at H st)) (set_status_fuel fuel (VNum (Int 204))) ;;
        remove "Content-Type" ;;
        remove "Content-Length" ;;
        remove "Transfer-Encoding"
      else
        explicit <- gets _explicitStatus ;;
        when (negb explicit) (set_status_fuel fuel (VNum (Int 200))) ;;
        hs <- headers ;;
        let setType := negb (truthy_header (hs !! "content-type")) in
        match val with
        | VStr str =>
            when setType (set_type (if looks_like_markup str then "html" else "text")) ;;
            set_length (byteLength H str)
        | VBuffer _ data =>
            when setType (set_type "bin") ;;
            set_length (Z.of_nat (List.length data))
        | VStream i =>
            when setType (set_type "bin") ;;
            modify (with_onFinished i) ;;
            modify (with_injected i) ;;
            when (negb (nullish original) && negb (strict_eq original val))
                 (remove "Content-Length")
        | _ =>
            set_type "json" ;;
            remove "Content-Length"
        end
  end.

Definition set_status (code : JsVal) : M unit := set_status_fuel call_depth code.

Definition set_body (val : JsVal) : M unit := set_body_fuel call_depth val.

Definition quote : string := String (ascii_of_N 34) EmptyString.

Definition redirect (url : string) (alt : option string) : M unit :=
  referrer <- Request.get "Referrer" ;;
  let url :=
    if String.eqb "back" url
    then Request.or_else referrer (Request.or_else (default "" alt) "/")
    else url in
  set "Location" (One (SStr url)) ;;
  st <- status ;;
  when (negb (redirect_at H st)) (set_status (VNum (Int 302))) ;;
  reqh <- gets (fun s => req_headers (req s)) ;;
  if accepts_types H reqh "html" then
    let url := escape H url in
    set_type "html" ;;
    set_body (VStr ("Redirecting to <a href=" +:+ quote +:+ url +:+ quote +:+ ">"
                    +:+ url +:+ "</a>."))
  else
    set_type "text" ;;
    set_body (VStr ("Redirecting to " +:+ url +:+ "."))
.
End View.
End Response.

(** ** The context *)

Module Ctx.
Section Handler.
Context (H : Host).

(** ['ENOENT' == code] *)
Definition is_ENOENT (c : ErrCode) : bool :=
  match c with
  | CodeStr s => String.eqb "ENOENT" s
  | _ => false
  end.

Definition mark_headerSent (e : ErrorObj) : ErrorObj :=
  mkError (err_message e) (err_code e) (err_status e) (err_expose e)
          (err_headers e) true.

(** The status [onerror] settles on. *)
Definition resolve_status (error : ErrorObj) : Number :=
  let status := Int 500 in
  let status := if is_ENOENT (err_code error) then Int 404 else status in
  match err_status error with
  | VNum n => if truthy (statuses_at H n) then n else status
  | _ => status
  end.

(** [error.expose ? error.message : statuses[status]] *)
Definition resolve_message (error : ErrorObj) (status : Number) : JsVal :=
  if truthy (err_expose error) then VStr (err_message error)
  else statuses_at H status.

(** [Buffer.byteLength(v)]: a string is measured, any other value refused. *)
Definition byteLength_of (v : JsVal) : M Z :=
  match v with
  | VStr str => ret (byteLength H str)
  | _ => throw (TypeError "ERR_INVALID_ARG_TYPE" v)
  end.

(** [onerror(error)]; [None] is [null] or [undefined].  [app.emit] is
    recorded in [emitted].  The headers are emptied as by [res._headers = {}];
    the other branch, a [removeHeader] per name, does the same while the
    headers are not sent. *)
Definition onerror (error : option Thrown) : M unit :=
  match error with
  | None => ret tt
  | Some thrown =>
      let error :=
        match thrown with
        | ThrownError e => e
        | ThrownValue v =>
            mkError (format H "non-error thrown: %j" v)
                    CodeNone VUndefined VUndefined [] false
        end in
      sent <- gets (fun s => headerSent (res s)) ;;
      w <- Response.writable ;;
      let headerSent := sent || negb w in
      let error := if headerSent then mark_headerSent error else error in
      modify (with_emitted error) ;;
      if headerSent then ret tt
      else
        modify (with_res (with_headers (fun _ => ∅))) ;;
        Response.set_fields (err_headers error) ;;
        let status := resolve_status error in
        let message := resolve_message error status in
        Response.set_status H (VNum status) ;;
        Response.set_type H "text" ;;
        n <- byteLength_of message ;;
        Response.set_length n ;;
        end_ message
  end.
End Handler.
End Ctx.

(** ** The application *)

(** [createContext(req, res)], for an application whose [proxy] setting is
    [trust]. *)
Definition createContext (trust : bool) (rq : IncomingMessage) (rs : ServerResponse)
    : State :=
  mkState rq (with_statusCode (Int 404) rs) false VNull trust [] [] [] [].

(** ** A host for the examples *)

(** The entries of the packages' tables that the examples use, and plain
    stand-ins for the negotiation and comparison functions. *)
Module Sample.

Definition statuses (z : Z) : option string :=
  if z =? 200 then Some "OK"
  else if z =? 204 then Some "No Content"
  else if z =? 205 then Some "Reset Content"
  else if z =? 301 then Some "Moved Permanently"
  else if z =? 302 then Some "Found"
  else if z =? 304 then Some "Not Modified"
  else if z =? 400 then Some "Bad Request"
  else if z =? 404 then Some "Not Found"
  else if z =? 500 then Some "Internal Server Error"
  else None.

Definition statuses_empty (z : Z) : bool :=
  (z =? 204) || (z =? 205) || (z =? 304).

Definition statuses_redirect (z : Z) : bool :=
  (z =? 300) || (z =? 301) || (z =? 302) || (z =? 303) || (z =? 305)
  || (z =? 307) || (z =? 308).

Definition contentType (type : string) : option string :=
  if String.eqb type "html" then Some "text/html; charset=utf-8"
  else if String.eqb type "text" then Some "text/plain; charset=utf-8"
  else if String.eqb type "json" then Some "application/json; charset=utf-8"
  else if String.eqb type "bin" then Some "application/octet-stream"
  else None.

(** UTF-8: one byte below 128, two from 128 to 255. *)
Fixpoint byteLength (s : string) : Z :=
  match s with
  | EmptyString => 0
  | String c r => (if (N_of_ascii c <? 128)%N then 1 else 2) + byteLength r
  end.

Fixpoint escape (s : string) : string :=
  match s with
  | EmptyString => EmptyString
  | String c r =>
      (if is_char 38 c then "&amp;"
       else if is_char 60 c then "&lt;"
       else if is_char 62 c then "&gt;"
       else if is_char 34 c then "&quot;"
       else if is_char 39 c then "&#39;"
       else String c EmptyString) +:+ escape r
  end.

Definition accepts_types (reqh : gmap string string) (type : string) : bool :=
  match reqh !! "accept" with
  | None => true
  | Some a => String.eqb a "*/*" || String.eqb a ("text/" +:+ type)
  end.

Definition fresh_lib (reqh : option (gmap string string))
    (resh : option (gmap string HeaderVal)) : Exn + bool :=
  match reqh, resh with
  | Some rq, Some rs =>
      inr match rq !! "if-none-match", rs !! "etag" with
          | Some a, Some (HStr b) => String.eqb a b
          | _, _ => false
          end
  | _, _ => inl (TypeError "Cannot read property of undefined" VUndefined)
  end.

Definition vary_lib (hs : gmap string HeaderVal) (field : string)
    : Exn + gmap string HeaderVal :=
  if String.eqb field "" then inl (TypeError "field argument is required" VUndefined)
  else match hs !! "vary" with
       | Some (HStr v) => inr (<["vary" := HStr (v +:+ ", " +:+ field)]> hs)
       | _ => inr (<["vary" := HStr field]> hs)
       end.

Definition format (fmt : string) (v : JsVal) : string := fmt.

Definition contentType_valid (type t : string) :
  valid_text type = true -> contentType type = Some t -> valid_text t = true.
Proof.
  intros _. unfold contentType.
  repeat (destruct (String.eqb type _); [intros [= <-]; reflexivity|]).
  discriminate.
Qed.

Definition host : Host :=
  mkHost statuses statuses_empty statuses_redirect contentType byteLength
         escape accepts_types fresh_lib vary_lib format contentType_valid.

Definition request : IncomingMessage :=
  mkReq "GET" ∅ 1 (VStr "10.0.0.7").

(** A response nothing was written to yet. *)
Definition response : ServerResponse :=
  mkRes false false false (Some true) (Int 200) VUndefined ∅ None [].

(** The same, its headers sent. *)
Definition sent_response : ServerResponse :=
  mkRes false true false (Some true) (Int 200) VUndefined ∅ None [].

Definition fresh_context : State := createContext false request response.

Definition sent_context : State := createContext false request sent_response.

(** A request that came from [/prev]. *)
Definition referred_request : IncomingMessage :=
  mkReq "GET" {["referrer" := "/prev"]} 1 (VStr "10.0.0.7").

(** An error with status 400, exposed or not. *)
Definition bad_request (expose : bool) : ErrorObj :=
  mkError "name is required" CodeNone (VNum (Int 400)) (VBool expose) [] false.

(** A conditional GET. *)
Definition conditional_request : IncomingMessage :=
  mkReq "GET" {["if-none-match" := "abc"]} 1 (VStr "10.0.0.7").

(** A GET request whose [If-None-Match] is the response's [ETag], answered
    with status 200. *)
Definition validated_exchange : Outcome unit :=
  (Response.set_status host (VNum (Int 200)) ;;
   Response.set "ETag" (One (SStr "abc")))
    (createContext false conditional_request response).

End Sample.

(** What a computation leaves, for the examples. *)
Definition final_state {A} (o : Outcome A) : option State :=
  match o with
  | Ok _ s => Some s
  | _ => None
  end.

Definition final_body {A} (o : Outcome A) : option JsVal :=
  _body <$> final_state o.

Definition final_status {A} (o : Outcome A) : option Number :=
  (fun s => statusCode (res s)) <$> final_state o.

Definition final_header {A} (field : string) (o : Outcome A) : option HeaderVal :=
  final_state o ≫= fun s => res_headers (res s) !! field.

(** ** The effects of the setters, as functions on states *)

(** Headers after [set type(type)]: the resolved type, or none. *)
Definition type_header (H : Host) (type : string) : option HeaderVal :=
  match contentType H type with
  | Some t => if String.eqb t "" then None else Some (HStr t)
  | None => None
  end.

Definition put_header (field : string) (o : option HeaderVal)
    (hs : gmap string HeaderVal) : gmap string HeaderVal :=
  match o with
  | Some v => <[field := v]> hs
  | None => delete field hs
  end.

(** The three content headers removed. *)
Definition strip_content (s : State) : State :=
  with_res (with_headers (fun hs =>
    delete "transfer-encoding" (delete "content-length" (delete "content-type" hs)))) s.

(** The previous body destroyed, when it is a stream and not the new value. *)
Definition drop_stream (v : JsVal) (s : State) : State :=
  if negb (strict_eq (_body s) v) && instanceof_Stream (_body s) then
    match _body s with
    | VStream i => with_destroyed i s
    | _ => s
    end
  else s.

(** A valid status code recorded. *)
Definition apply_status (H : Host) (n : Number) (s : State) : State :=
  let s := with_res (with_statusCode n) (with_explicitStatus true s) in
  if httpVersionMajor (req s) <? 2
  then with_res (with_statusMessage (statuses_at H n)) s
  else s.

(** The body replaced by [null] under an empty-body status. *)
Definition null_body (s : State) : State :=
  strip_content (with_body VNull (drop_stream VNull s)).

(** The status as a non-null body leaves it: 200 unless one was set. *)
Definition default_status (H : Host) (s : State) : State :=
  if _explicitStatus s then s else apply_status H (Int 200) s.

(** The content headers inferred from a non-null body. *)
Definition infer_content (H : Host) (original val : JsVal) (s : State) : State :=
  let setType := negb (truthy_header (res_headers (res s) !! "content-type")) in
  let typed type s :=
    if setType
    then with_res (with_headers (put_header "content-type" (type_header H type))) s
    else s in
  let sized n s :=
    with_res (with_headers (insert "content-length" (HStr (pretty n)))) s in
  let unsized s := with_res (with_headers (delete "content-length")) s in
  match val with
  | VStr str =>
      sized (byteLength H str) (typed (if looks_like_markup str then "html" else "text") s)
  | VBuffer _ data => sized (Z.of_nat (List.length data)) (typed "bin" s)
  | VStream i =>
      let s := with_injected i (with_onFinished i (typed "bin" s)) in
      if negb (nullish original) && negb (strict_eq original val) then unsized s else s
  | _ =>
      unsized (with_res (with_headers (put_header "content-type" (type_header H "json"))) s)
  end.

(** A computation that gives a result or raises, in every state. *)
Definition returns {A} (m : M A) : Prop := forall s, m s <> OutOfFuel.

(** The commas of a string. *)
Definition commas (l : list ascii) : nat := List.length (List.filter (is_char 44) l).

(** ** The response view, continued: type, etag, message, length *)

(** The last entry of an object of header fields whose name is [key] in
    lower case. *)
Definition last_field (key : string) (fields : list (string * HeaderArg))
    : option HeaderArg :=
  snd <$> List.find (fun kv => String.eqb (toLowerCase (fst kv)) key) (rev fields).

(** The values of a header, as a list; the empty string is no value. *)
Definition values (h : HeaderVal) : list string :=
  match h with
  | HStr str => if String.eqb str "" then [] else [str]
  | HList l => l
  end.

(** [s.split(c)[0]]: the part of [s] before the first [c]. *)
Fixpoint before_char (k : N) (s : string) : string :=
  match s with
  | EmptyString => EmptyString
  | String c r => if is_char k c then EmptyString else String c (before_char k r)
  end.

(** Whether the code unit [k] occurs in [s]. *)
Definition has_char (k : N) (s : string) : bool :=
  existsb (is_char k) (list_ascii_of_string s).

(** [s.split(/\s*,\s*/)[0]], for a non-empty [s]. *)
Definition first_piece (s : string) : string :=
  match split_commas s with
  | p :: _ => p
  | [] => ""
  end.

(** The test of [set etag]: [val] starts with a double quote, or with [W/]
    and a double quote. *)
Definition is_etag (val : string) : bool :=
  match val with
  | String c r =>
      if is_char 34 c then true
      else
        match r with
        | String c1 (String c2 _) => is_char 87 c && is_char 47 c1 && is_char 34 c2
        | _ => false
        end
  | EmptyString => false
  end.

(** [String(n)]; an integer is below [10^21] in magnitude. *)
Definition String_number (n : Number) : string :=
  match n with
  | Int z => pretty z
  | NaN => "NaN"
  | Infinity negative => if negative then "-Infinity" else "Infinity"
  | Fractional repr => repr
  end.

(** The value of a string of decimal digits. *)
Definition digit (c : ascii) : option Z :=
  let n := N_of_ascii c in
  if ((48 <=? n) && (n <=? 57))%N then Some (Z.of_N n - 48) else None.

Fixpoint decimal (s : string) : option Z :=
  match s with
  | EmptyString => Some 0
  | String c r =>
      match digit c, decimal r with
      | Some d, Some v => Some (d * 10 ^ Z.of_nat (String.length r) + v)
      | _, _ => None
      end
  end.

(** [ToInt32]: the value modulo [2^32], between [-2^31] and [2^31 - 1]. *)
Definition to_int32 (z : Z) : Z := (z + 2 ^ 31) mod 2 ^ 32 - 2 ^ 31.

(** What [JSON], koa-is-json and the conversion to numbers answer. *)
Record Json := mkJson {
  (** [isJSON(body)] *)
  isJSON : JsVal -> bool;
  (** [JSON.stringify(body)] *)
  stringify : JsVal -> string;
  (** [~~v], for a header value that is not a string of decimal digits
      denoting an integer up to [2^53] (the empty string denotes 0) *)
  to_int32_other : HeaderVal -> Z
}.

Module Content.
Section View.
Context (H : Host) (J : Json).

(** [get message()] *)
Definition get_message : M JsVal :=
  gets (fun s =>
    let msg := statusMessage (res s) in
    if truthy msg then msg else VStr "").

(** [get type()]; an array has no [split]. *)
Definition get_type : M string :=
  type <- Response.get "Content-Type" ;;
  match type with
  | HStr t => ret (if negb (String.eqb t "") then before_char 59 t else "")
  | HList _ => throw (TypeError "type.split is not a function" VUndefined)
  end.

(** [set etag(val)] *)
Definition set_etag (val : string) : M unit :=
  let val :=
    if negb (is_etag val) then Response.quote +:+ val +:+ Response.quote else val in
  Response.set "ETag" (One (SStr val)).

(** [get etag()] *)
Definition get_etag : M HeaderVal := Response.get "ETag".

(** [~~len] *)
Definition double_tilde (len : HeaderVal) : Z :=
  match len with
  | HStr str =>
      match decimal str with
      | Some v => if v <=? 2 ^ 53 then to_int32 v else to_int32_other J len
      | None => to_int32_other J len
      end
  | HList _ => to_int32_other J len
  end.

(** [get length()]; [None] is [null]. *)
Definition get_length : M (option Z) :=
  hs <- Response.headers ;;
  match hs !! "content-length" with
  | None =>
      body <- Response.body ;;
      if negb (truthy body) then ret None
      else
        match body with
        | VStr str => ret (Some (byteLength H str))
        | VBuffer _ data => ret (Some (Z.of_nat (List.length data)))
        | _ =>
            if isJSON J body then ret (Some (byteLength H (stringify J body)))
            else ret None
        end
  | Some len => ret (Some (double_tilde len))
  end.
End View.
End Content.

(** ** The request view, continued: ip, protocol, host *)

Module Origin.

(** [get ip()] *)
Definition ip : M JsVal :=
  l <- Request.ips ;;
  ret match l with
      | first :: _ => if truthy first then first else VStr ""
      | [] => VStr ""
      end.

(** [get protocol()]; [encrypted] is [req.socket.encrypted], which the
    record of the request does not hold. *)
Definition protocol (encrypted : bool) : M string :=
  if encrypted then ret "https"
  else
    trusted <- gets proxy ;;
    if negb trusted then ret "http"
    else
      proto <- Request.get "X-Forwarded-Proto" ;;
      ret (if negb (String.eqb proto "") then first_piece proto else "http").

(** [get host()] *)
Definition host : M string :=
  trusted <- gets proxy ;;
  forwarded <- (if trusted then Request.get "X-Forwarded-Host" else ret "") ;;
  h <- (if negb (String.eqb forwarded "") then ret forwarded else Request.get "Host") ;;
  ret (if negb (String.eqb h "") then first_piece h else "").

(** [host.substring(0, host.indexOf(']'))]: nothing when there is no [']']. *)
Fixpoint before_bracket (s : string) : option string :=
  match s with
  | EmptyString => None
  | String c r =>
      if is_char 93 c then Some EmptyString
      else option_map (String c) (before_bracket r)
  end.

(** [get hostname()] *)
Definition hostname : M string :=
  h <- host ;;
  match h with
  | String c _ =>
      if is_char 91 c then ret (default "" (before_bracket h))
      else ret (before_char 58 h)
  | EmptyString => ret ""
  end.

(** [get origin()] *)
Definition origin (encrypted : bool) : M string :=
  p <- protocol encrypted ;;
  h <- host ;;
  ret (p +:+ "://" +:+ h).

(** The request with other headers. *)
Definition with_req_headers (hs : gmap string string) (s : State) : State :=
  mkState (mkReq (method (req s)) hs (httpVersionMajor (req s)) (remoteAddress (req s)))
          (res s) (_explicitStatus s) (_body s) (proxy s)
          (emitted s) (destroyed s) (onFinished s) (injected s).

End Origin.

(** The value a computation returns. *)
Definition returned {A} (o : Outcome A) : option A :=
  match o with
  | Ok a _ => Some a
  | _ => None
  end.

(** ** The context, continued: the default response *)

(** What [respond] did with the transport response. *)
Inductive Sent :=
| NotWritable
| Ended
| Piped (stream : nat).

Module Finalize.
Section Respond.
Context (H : Host) (J : Json).

(** [respond()]; [res.end()] without payload is recorded as [undefined], and
    [body.pipe(res)] is the result [Piped]: the transfer is the stream's. *)
Definition respond : M Sent :=
  w <- Response.writable ;;
  if negb w then ret NotWritable
  else
    code <- Response.status ;;
    if empty_at H code then
      Response.set_body H VNull ;;
      end_ VUndefined ;;
      ret Ended
    else
      method <- gets (fun s => method (req s)) ;;
      if String.eqb "HEAD" method then
        body <- Response.body ;;
        sent <- Response.get_headersSent ;;
        when (negb sent && isJSON J body)
             (Response.set_length (byteLength H (stringify J body))) ;;
        end_ VUndefined ;;
        ret Ended
      else
        body <- Response.body ;;
        if nullish body then
          message <- Content.get_message ;;
          let body := if truthy message then message else VStr (String_number code) in
          sent <- Response.get_headersSent ;;
          when (negb sent)
               (Response.set_type H "text" ;;
                n <- Ctx.byteLength_of H body ;;
                Response.set_length n) ;;
          end_ body ;;
          ret Ended
        else
          match body with
          | VStr _ | VBuffer _ _ => end_ body ;; ret Ended
          | VStream i => ret (Piped i)
          | _ =>
              let str := stringify J body in
              sent <- Response.get_headersSent ;;
              when (negb sent) (Response.set_length (byteLength H str)) ;;
              end_ (VStr str) ;;
              ret Ended
          end.
End Respond.
End Finalize.

(** ** The application, continued: [use] and [onerror] *)

(** An argument of [use]: a function, with its [name] and [_name], or any
    other value. *)
Inductive Middleware :=
| Fn (id : nat) (name _name : string)
| NotFn (v : JsVal).

(** The application: its middleware, its settings, and what it wrote with
    [console.error]. *)
Record App := mkApp {
  middlewares : list Middleware;
  app_proxy : bool;
  silent : bool;
  stderr : list string
}.

Module Application.

(** [use(fn)].  [debug] is what the package debug exports, not a logger
    made from it: [debug('[use] %s', fn.name || fn._name || '-')] makes a
    logger named by its first argument, and writes nothing. *)
Definition use (fn : Middleware) (app : App) : Exn + App :=
  match fn with
  | NotFn v => inl (TypeError "middleware must be a function!" v)
  | Fn _ _ _ =>
      inr (mkApp (middlewares app ++ [fn]) (app_proxy app) (silent app) (stderr app))
  end.

(** [app.use(f1).use(f2)...] *)
Fixpoint use_all (fns : list Middleware) (app : App) : Exn + App :=
  match fns with
  | [] => inr app
  | fn :: rest =>
      match use fn app with
      | inl e => inl e
      | inr app' => use_all rest app'
      end
  end.

(** [msg.replace(/^/gm, '  ')]: two spaces at the start, and after every
    line terminator; among the code units below 256 these are the line feed
    and the carriage return, each on its own. *)
Fixpoint indent_rest (msg : string) : string :=
  match msg with
  | EmptyString => EmptyString
  | String c r =>
      if is_char 10 c || is_char 13 c
      then String c ("  " +:+ indent_rest r)
      else String c (indent_rest r)
  end.

Definition indent (msg : string) : string := "  " +:+ indent_rest msg.

(** The lines of a text: the pieces between line terminators. *)
Fixpoint lines (msg : string) : list string :=
  match msg with
  | EmptyString => [EmptyString]
  | String c r =>
      if is_char 10 c || is_char 13 c then EmptyString :: lines r
      else
        match lines r with
        | l :: ls => String c l :: ls
        | [] => [String c EmptyString]
        end
  end.

Definition is_fn (fn : Middleware) : bool :=
  match fn with
  | Fn _ _ _ => true
  | NotFn _ => false
  end.

(** [onerror(error)]; [stack] is [error.stack] when it is a non-empty
    string, and [rendered] is [error.toString()]. *)
Definition onerror (error : Thrown) (stack : option string) (rendered : string)
    (app : App) : Exn + App :=
  match error with
  | ThrownValue v => inl (TypeError "non-error thrown: %j" v)
  | ThrownError e =>
      if truthy (err_expose e) then inr app
      else if silent app then inr app
      else
        let msg := Request.or_else (default "" stack) rendered in
        inr (mkApp (middlewares app) (app_proxy app) (silent app)
                   (stderr app ++ [""; indent msg; ""]))
  end.

End Application.

(** What the setters leave of the transport: everything but the status, the
    message and the headers. *)
Definition same_transport (s s' : State) : Prop :=
  req s' = req s /\
  finished (res s') = finished (res s) /\
  socket (res s') = socket (res s) /\
  headersSent (res s') = headersSent (res s) /\
  ended (res s') = ended (res s).

(** ** More examples *)

Module Example.

(** koa-is-json: a truthy value that is no string, buffer or stream. *)
Definition isJSON (v : JsVal) : bool :=
  truthy v &&
  match v with
  | VStr _ | VBuffer _ _ | VStream _ => false
  | _ => true
  end.

(** The JSON text of a boolean or a number, and [{}] for an object. *)
Definition stringify (v : JsVal) : string :=
  match v with
  | VBool b => if b then "true" else "false"
  | VNum n => String_number n
  | VNull => "null"
  | _ => "{}"
  end.

Definition json : Json := mkJson isJSON stringify (fun _ => 0).

Definition head_request : IncomingMessage :=
  mkReq "HEAD" ∅ 1 (VStr "10.0.0.7").

(** A context whose status was set to 404, without a body. *)
Definition not_found : State :=
  mkState Sample.request
          (mkRes false false false (Some true) (Int 404) (VStr "Not Found") ∅ None [])
          true VNull false [] [] [] [].

(** A context whose status is 200, with a body. *)
Definition answered (body : JsVal) : State :=
  mkState Sample.request
          (mkRes false false false (Some true) (Int 200) (VStr "OK") ∅ None [])
          true body false [] [] [] [].

(** A new context whose transport has a [Link] header. *)
Definition linked_context : State :=
  createContext false Sample.request
    (mkRes false false false (Some true) (Int 200) VUndefined
           {["link" := HStr "<a>"]} None []).

(** The sample context, its request carrying forwarding headers. *)
Definition forged_context : State :=
  Origin.with_req_headers
    (<["x-forwarded-host" := "evil.example"]>
       (<["x-forwarded-proto" := "https"]>
          (<["x-forwarded-for" := "1.2.3.4"]> (req_headers (req Sample.fresh_context)))))
    Sample.fresh_context.

(** An exposed error with status 400 and a header of its own. *)
Definition rejected : ErrorObj :=
  mkError "name is required" CodeNone (VNum (Int 400)) (VBool true)
          [("X-Reason", One (SStr "name"))] false.

End Example.

(** ** Running the operations *)

Ltac mcbn :=
  cbn [bind gets modify ret throw when for_each
       with_res with_explicitStatus with_body with_emitted with_destroyed
       with_onFinished with_injected with_headers with_statusCode with_statusMessage
       req res _explicitStatus _body proxy emitted destroyed onFinished injected
       headerSent headersSent finished socket statusCode statusMessage res_headers
       status_prop ended method req_headers httpVersionMajor remoteAddress
       strip_content null_body
       Response.status Response.body Response.headers Response.get_headersSent
       Response.set_message Response.flushHeaders setHeader removeHeader end_ is_chunk
       negb andb orb nullish fst snd] in *.

Ltac mrun :=
  unfold Response.status, Response.body, Response.headers,
    Response.get_headersSent, Response.set_message, Response.flushHeaders,
    setHeader, removeHeader, end_, bind, gets, modify, ret, throw, when in *;
  mcbn.

Lemma drop_stream_res v s : res (drop_stream v s) = res s.
Proof.
  unfold drop_stream. destruct (_ && _); [|reflexivity].
  destruct (_body s); reflexivity.
Qed.

Lemma drop_stream_req v s : req (drop_stream v s) = req s.
Proof.
  unfold drop_stream. destruct (_ && _); [|reflexivity].
  destruct (_body s); reflexivity.
Qed.

Lemma drop_stream_explicit v s : _explicitStatus (drop_stream v s) = _explicitStatus s.
Proof.
  unfold drop_stream. destruct (_ && _); [|reflexivity].
  destruct (_body s); reflexivity.
Qed.

Lemma drop_stream_body v s : _body (drop_stream v s) = _body s.
Proof.
  unfold drop_stream. destruct (_ && _); [|reflexivity].
  destruct (_body s) eqn:E; cbn; congruence.
Qed.

Section Runs.
Context (H : Host).

Lemma set_status_fuel_eq f code :
  Response.set_status_fuel H (S f) code =
  (sent <- Response.get_headersSent ;;
   if sent then ret tt
   else
     match code with
     | VNum n =>
         if negb (truthy (statuses_at H n)) then
           throw (RangeError "invalid status code: %d" code)
         else
           modify (with_explicitStatus true) ;;
           modify (with_res (with_statusCode n)) ;;
           major <- gets (fun s => httpVersionMajor (req s)) ;;
           when (major <? 2) (Response.set_message (statuses_at H n)) ;;
           b <- Response.body ;;
           when (truthy b && empty_at H n) (Response.set_body_fuel H f VNull)
     | _ => throw (TypeError "non-numeric status code: %j" code)
     end).
Proof. reflexivity. Qed.

Lemma set_body_fuel_null f val :
  nullish val = true ->
  Response.set_body_fuel H (S f) val =
  (original <- gets _body ;;
   when (negb (strict_eq original val) && instanceof_Stream original)
        (Response.destroy original) ;;
   modify (with_body val) ;;
   st <- Response.status ;;
   when (negb (empty_at H st)) (Response.set_status_fuel H f (VNum (Int 204))) ;;
   Response.remove "Content-Type" ;;
   Response.remove "Content-Length" ;;
   Response.remove "Transfer-Encoding").
Proof. intros N. cbn [Response.set_body_fuel]. now rewrite N. Qed.

Lemma remove_unsent f s :
  headersSent (res s) = false ->
  Response.remove f s = Ok tt (with_res (with_headers (delete (toLowerCase f))) s).
Proof. intros E. unfold Response.remove. mcbn. now rewrite E. Qed.

(** [set] with a name and a value the transport accepts. *)
Lemma set_unsent f v s :
  headersSent (res s) = false ->
  valid_name f = true -> valid_value (stored v) = true ->
  Response.set f v s =
  Ok tt (with_res (with_headers (insert (toLowerCase f)
           match v with
           | Many xs => HList (map String_ xs)
           | One x => HStr (String_ x)
           end)) s).
Proof.
  intros E Vn Vv. unfold Response.set, setHeader, stored in *. mcbn.
  now rewrite E, Vn, Vv.
Qed.

(** [set] with a name or a value the transport refuses. *)
Lemma set_refused f v s :
  headersSent (res s) = false ->
  valid_name f && valid_value (stored v) = false ->
  exists fmt, Response.set f v s = Throw (TypeError fmt (VStr f)) s.
Proof.
  intros E Vf. unfold Response.set, setHeader, stored in *. mcbn. rewrite E.
  destruct (valid_name f); cbn [negb andb] in *; [|eauto].
  rewrite Vf. cbn [negb]. eauto.
Qed.

Lemma valid_text_pretty_N_go (x : N) : forall s,
  valid_text s = true -> valid_text (pretty_N_go x s) = true.
Proof.
  induction (N.lt_wf_0 x) as [x _ IH]. intros s Hs.
  destruct (N.eq_dec x 0%N) as [->|Hx].
  - now rewrite pretty_N_go_0.
  - rewrite pretty_N_go_step by lia. apply IH; [apply N.div_lt; lia|].
    assert (Hd : (x mod 10 < 10)%N) by (apply N.mod_lt; lia).
    generalize dependent (x mod 10)%N. intros d Hd.
    unfold valid_text in *. cbn [list_ascii_of_string forallb]. rewrite Hs.
    assert (d = 0 \/ d = 1 \/ d = 2 \/ d = 3 \/ d = 4 \/ d = 5 \/ d = 6 \/ d = 7
            \/ d = 8 \/ d = 9)%N as Hc by lia.
    repeat (destruct Hc as [->|Hc]; [reflexivity|]). subst d. reflexivity.
Qed.

(** A number in decimal digits is a header value. *)
Lemma valid_text_pretty (z : Z) : valid_text (pretty z) = true.
Proof.
  assert (HN : forall n : N, valid_text (pretty n) = true).
  { intros n. unfold pretty, pretty_N. destruct (decide (n = 0%N)); [reflexivity|].
    now apply valid_text_pretty_N_go. }
  destruct z as [|p|p]; [reflexivity | apply HN |].
  change (pretty (Z.neg p)) with ("-" +:+ pretty (N.pos p)).
  unfold valid_text. cbn [String.append list_ascii_of_string forallb].
  apply (HN (N.pos p)).
Qed.

Lemma set_length_unsent n s :
  headersSent (res s) = false ->
  Response.set_length n s =
  Ok tt (with_res (with_headers (insert "content-length" (HStr (pretty n)))) s).
Proof.
  intros E. unfold Response.set_length.
  rewrite set_unsent; [reflexivity | assumption | reflexivity | apply valid_text_pretty].
Qed.

(** [type = t], for a [t] without control characters. *)
Lemma set_type_unsent type s :
  headersSent (res s) = false ->
  valid_text type = true ->
  Response.set_type H type s =
  Ok tt (with_res (with_headers (put_header "content-type" (type_header H type))) s).
Proof.
  intros E Vt. unfold Response.set_type, type_header.
  destruct (contentType H type) as [t|] eqn:Ht.
  - destruct (String.eqb t ""); cbn [negb].
    + now rewrite remove_unsent.
    + rewrite set_unsent; [reflexivity | assumption | reflexivity |].
      exact (contentType_valid H type t Vt Ht).
  - now rewrite remove_unsent.
Qed.

Lemma destroy_previous v s :
  when (negb (strict_eq (_body s) v) && instanceof_Stream (_body s))
       (Response.destroy (_body s)) s = Ok tt (drop_stream v s).
Proof.
  unfold drop_stream. destruct (_ && _); [|reflexivity].
  destruct (_body s); reflexivity.
Qed.

Lemma set_status_sent f v s :
  headersSent (res s) = true -> Response.set_status_fuel H (S f) v s = Ok tt s.
Proof. intros E. rewrite set_status_fuel_eq. mcbn. now rewrite E. Qed.

Lemma set_status_registered f n s :
  headersSent (res s) = false -> truthy (statuses_at H n) = true ->
  Response.set_status_fuel H (S f) (VNum n) s =
  when (truthy (_body s) && empty_at H n) (Response.set_body_fuel H f VNull)
       (apply_status H n s).
Proof.
  intros E R. rewrite set_status_fuel_eq. mcbn. rewrite E, R. mcbn.
  unfold apply_status. mcbn.
  destruct (httpVersionMajor (req s) <? 2); reflexivity.
Qed.

Lemma apply_status_headersSent n s :
  headersSent (res (apply_status H n s)) = headersSent (res s).
Proof. unfold apply_status. mcbn. destruct (_ <? _); reflexivity. Qed.

Lemma apply_status_statusCode n s : statusCode (res (apply_status H n s)) = n.
Proof. unfold apply_status. mcbn. destruct (_ <? _); reflexivity. Qed.

Lemma apply_status_body n s : _body (apply_status H n s) = _body s.
Proof. unfold apply_status. mcbn. destruct (_ <? _); reflexivity. Qed.

Lemma apply_status_explicit n s : _explicitStatus (apply_status H n s) = true.
Proof. unfold apply_status. mcbn. destruct (_ <? _); reflexivity. Qed.

Lemma apply_status_headers n s :
  res_headers (res (apply_status H n s)) = res_headers (res s).
Proof. unfold apply_status. mcbn. destruct (_ <? _); reflexivity. Qed.

Lemma apply_status_req n s : req (apply_status H n s) = req s.
Proof. unfold apply_status. mcbn. destruct (_ <? _); reflexivity. Qed.

Lemma apply_status_ended n s : ended (res (apply_status H n s)) = ended (res s).
Proof. unfold apply_status. mcbn. destruct (_ <? _); reflexivity. Qed.

(** [body = null] under an empty-body status: no setter is called again. *)
Lemma set_body_null_empty f v s :
  headersSent (res s) = false -> nullish v = true ->
  empty_at H (statusCode (res s)) = true ->
  Response.set_body_fuel H (S f) v s =
  Ok tt (strip_content (with_body v (drop_stream v s))).
Proof.
  intros E N Em. rewrite set_body_fuel_null by assumption.
  unfold bind at 1. unfold gets at 1. unfold bind at 1.
  rewrite destroy_previous. mcbn.
  rewrite drop_stream_res, Em. mcbn.
  unfold bind.
  rewrite !remove_unsent by (mcbn; now rewrite ?drop_stream_res).
  reflexivity.
Qed.

(** [body = null] under another status: the status becomes 204. *)
Lemma set_body_null_other f v s :
  headersSent (res s) = false -> nullish v = true ->
  empty_at H (statusCode (res s)) = false ->
  truthy (statuses_at H (Int 204)) = true ->
  Response.set_body_fuel H (S (S f)) v s =
  Ok tt (strip_content (apply_status H (Int 204) (with_body v (drop_stream v s)))).
Proof.
  intros E N Em R. rewrite set_body_fuel_null by assumption.
  unfold bind at 1. unfold gets at 1. unfold bind at 1.
  rewrite destroy_previous. mcbn.
  rewrite drop_stream_res, Em. mcbn.
  unfold bind at 1.
  rewrite set_status_registered by (mcbn; now rewrite ?drop_stream_res).
  mcbn. replace (truthy v) with false by (destruct v; discriminate || reflexivity).
  mcbn. unfold bind.
  rewrite !remove_unsent
    by (mcbn; rewrite ?apply_status_headersSent; mcbn; now rewrite ?drop_stream_res).
  reflexivity.
Qed.

(** A valid status that leaves the body alone. *)
Lemma set_status_plain f n s :
  headersSent (res s) = false -> truthy (statuses_at H n) = true ->
  truthy (_body s) && empty_at H n = false ->
  Response.set_status_fuel H (S f) (VNum n) s = Ok tt (apply_status H n s).
Proof. intros E R B. rewrite set_status_registered by assumption. now rewrite B. Qed.

(** A valid empty-body status over a body: the body becomes [null]. *)
Lemma set_status_nulls f n s :
  headersSent (res s) = false -> truthy (statuses_at H n) = true ->
  truthy (_body s) = true -> empty_at H n = true ->
  Response.set_status_fuel H (S (S f)) (VNum n) s =
  Ok tt (null_body (apply_status H n s)).
Proof.
  intros E R B Em. rewrite set_status_registered by assumption.
  rewrite B, Em. mcbn.
  rewrite set_body_null_empty; [reflexivity| |reflexivity|].
  - now rewrite apply_status_headersSent.
  - now rewrite apply_status_statusCode.
Qed.
End Runs.

Create Rewrite HintDb frame.

#[local] Hint Rewrite drop_stream_res drop_stream_req drop_stream_explicit
  drop_stream_body apply_status_headersSent apply_status_statusCode
  apply_status_body apply_status_explicit apply_status_headers apply_status_req
  apply_status_ended : frame.

Ltac frame := repeat (mcbn; autorewrite with frame in * ).

Ltac unsent := frame; first [assumption | reflexivity].

Section Setters.
Context (H : Host).

Lemma set_body_fuel_value f val :
  nullish val = false ->
  Response.set_body_fuel H (S f) val =
  (original <- gets _body ;;
   when (negb (strict_eq original val) && instanceof_Stream original)
        (Response.destroy original) ;;
   modify (with_body val) ;;
   explicit <- gets _explicitStatus ;;
   when (negb explicit) (Response.set_status_fuel H f (VNum (Int 200))) ;;
   hs <- Response.headers ;;
   let setType := negb (truthy_header (hs !! "content-type")) in
   match val with
   | VStr str =>
       when setType
            (Response.set_type H (if looks_like_markup str then "html" else "text")) ;;
       Response.set_length (byteLength H str)
   | VBuffer _ data =>
       when setType (Response.set_type H "bin") ;;
       Response.set_length (Z.of_nat (List.length data))
   | VStream i =>
       when setType (Response.set_type H "bin") ;;
       modify (with_onFinished i) ;;
       modify (with_injected i) ;;
       when (negb (nullish original) && negb (strict_eq original val))
            (Response.remove "Content-Length")
   | _ =>
       Response.set_type H "json" ;;
       Response.remove "Content-Length"
   end).
Proof. intros N. cbn [Response.set_body_fuel]. now rewrite N. Qed.

Lemma default_status_headersSent s :
  headersSent (res (default_status H s)) = headersSent (res s).
Proof. unfold default_status. destruct (_explicitStatus s); now frame. Qed.

Lemma default_status_body s : _body (default_status H s) = _body s.
Proof. unfold default_status. destruct (_explicitStatus s); now frame. Qed.

Lemma default_status_headers s :
  res_headers (res (default_status H s)) = res_headers (res s).
Proof. unfold default_status. destruct (_explicitStatus s); now frame. Qed.

Lemma default_status_statusCode s :
  statusCode (res (default_status H s))
  = if _explicitStatus s then statusCode (res s) else Int 200.
Proof. unfold default_status. destruct (_explicitStatus s); now frame. Qed.

Lemma default_status_explicit s : _explicitStatus (default_status H s) = true.
Proof. unfold default_status. destruct (_explicitStatus s) eqn:E; now frame. Qed.

Lemma default_status_req s : req (default_status H s) = req s.
Proof. unfold default_status. destruct (_explicitStatus s); now frame. Qed.

(** The tail of [set body]: the headers inferred from the value. *)
Lemma infer_content_run original val s :
  headersSent (res s) = false -> nullish val = false ->
  (hs <- Response.headers ;;
   let setType := negb (truthy_header (hs !! "content-type")) in
   match val with
   | VStr str =>
       when setType
            (Response.set_type H (if looks_like_markup str then "html" else "text")) ;;
       Response.set_length (byteLength H str)
   | VBuffer _ data =>
       when setType (Response.set_type H "bin") ;;
       Response.set_length (Z.of_nat (List.length data))
   | VStream i =>
       when setType (Response.set_type H "bin") ;;
       modify (with_onFinished i) ;;
       modify (with_injected i) ;;
       when (negb (nullish original) && negb (strict_eq original val))
            (Response.remove "Content-Length")
   | _ =>
       Response.set_type H "json" ;;
       Response.remove "Content-Length"
   end) s = Ok tt (infer_content H original val s).
Proof.
  intros E N. unfold bind at 1, Response.headers at 1, gets at 1.
  unfold infer_content. cbv zeta.
  destruct (truthy_header (res_headers (res s) !! "content-type")); cbn [negb when];
    destruct val; try discriminate N;
    try destruct (looks_like_markup _);
    repeat first
      [ progress (unfold bind at 1)
      | rewrite set_type_unsent by unsent
      | rewrite set_length_unsent by unsent
      | rewrite remove_unsent by unsent
      | progress mrun ];
    try reflexivity.
  all: destruct (negb _ && negb _); mrun; try reflexivity.
  all: now rewrite remove_unsent by unsent.
Qed.

(** [body = val], for a value that is not [null]. *)
Lemma set_body_value f val s :
  headersSent (res s) = false -> nullish val = false ->
  _explicitStatus s = true \/
    (truthy (statuses_at H (Int 200)) = true /\ empty_at H (Int 200) = false) ->
  Response.set_body_fuel H (S (S f)) val s =
  Ok tt (infer_content H (_body s) val
           (default_status H (with_body val (drop_stream val s)))).
Proof.
  intros E N X. rewrite set_body_fuel_value by assumption.
  unfold bind at 1, gets at 1. unfold bind at 1. rewrite destroy_previous.
  unfold bind at 1, modify at 1.
  unfold bind at 1, gets at 1. mcbn. rewrite drop_stream_explicit.
  unfold default_status. mcbn. rewrite drop_stream_explicit.
  unfold bind at 1.
  destruct (_explicitStatus s) eqn:Ex; cbn [negb when].
  - unfold ret at 1. apply infer_content_run; [unsent | assumption].
  - destruct X as [X | [R Em]]; [discriminate|].
    rewrite set_status_plain; [| unsent | assumption | now rewrite Em, andb_false_r].
    apply infer_content_run; [unsent | assumption].
Qed.
End Setters.

Lemma infer_content_body H o v s : _body (infer_content H o v s) = _body s.
Proof.
  unfold infer_content. cbv zeta.
  destruct (negb (truthy_header _)), v; mcbn; try reflexivity;
    destruct (negb _ && negb _); reflexivity.
Qed.

Lemma infer_content_statusCode H o v s :
  statusCode (res (infer_content H o v s)) = statusCode (res s).
Proof.
  unfold infer_content. cbv zeta.
  destruct (negb (truthy_header _)), v; mcbn; try reflexivity;
    destruct (negb _ && negb _); reflexivity.
Qed.

Lemma infer_content_headersSent H o v s :
  headersSent (res (infer_content H o v s)) = headersSent (res s).
Proof.
  unfold infer_content. cbv zeta.
  destruct (negb (truthy_header _)), v; mcbn; try reflexivity;
    destruct (negb _ && negb _); reflexivity.
Qed.

Lemma lookup_put_header_ne k f o (hs : gmap string HeaderVal) :
  f <> k -> put_header f o hs !! k = hs !! k.
Proof.
  intros Hne. unfold put_header. destruct o.
  - now rewrite lookup_insert_ne.
  - now rewrite lookup_delete_ne.
Qed.

Lemma lookup_put_header f o (hs : gmap string HeaderVal) :
  put_header f o hs !! f = o.
Proof.
  unfold put_header. destruct o.
  - apply lookup_insert_eq.
  - apply lookup_delete_eq.
Qed.

(** Only the two content headers move. *)
Lemma infer_content_other H o v s k :
  k <> "content-type" -> k <> "content-length" ->
  res_headers (res (infer_content H o v s)) !! k = res_headers (res s) !! k.
Proof.
  intros K1 K2. unfold infer_content. cbv zeta.
  destruct (negb (truthy_header _)), v; mcbn;
    try destruct (negb _ && negb _); mcbn;
    rewrite ?lookup_insert_ne, ?lookup_delete_ne, ?lookup_put_header_ne by congruence;
    reflexivity.
Qed.

#[local] Hint Rewrite default_status_headersSent default_status_body
  default_status_headers default_status_explicit default_status_req
  infer_content_body infer_content_statusCode infer_content_headersSent : frame.

(** ** Properties *)

Lemma strip_content_headers s f :
  f = "content-type" \/ f = "content-length" \/ f = "transfer-encoding" ->
  res_headers (res (strip_content s)) !! f = None.
Proof.
  intros Hf. mcbn.
  destruct Hf as [-> | [-> | ->]]; simplify_map_eq; reflexivity.
Qed.

(** C10: once the headers are sent, setting the status to any value, a number
    or not, registered or not, returns normally and leaves the whole state as
    it was: status code, explicit-status flag and body included.  No
    validation takes place. *)
Theorem set_status_ignored_once_sent (H : Host) (v : JsVal) (s : State) :
  headersSent (res s) = true ->
  Response.set_status H v s = Ok tt s.
Proof. intros E. now apply set_status_sent. Qed.

Lemma set_status_ignored_once_sent_witness :
  Response.set_status Sample.host (VStr "abc") Sample.sent_context
  = Ok tt Sample.sent_context.
Proof. apply set_status_ignored_once_sent. reflexivity. Defined.

(** C6: once the headers are sent, [set] (in both forms), [append], [remove]
    and [vary] return normally and leave the state, and so the response
    headers, as they were. *)
Theorem header_mutations_ignored_once_sent (H : Host) (s : State) :
  headersSent (res s) = true ->
  (forall field val, Response.set field val s = Ok tt s) /\
  (forall fields, Response.set_fields fields s = Ok tt s) /\
  (forall field val, Response.append field val s = Ok tt s) /\
  (forall field, Response.remove field s = Ok tt s) /\
  (forall field, Response.vary H field s = Ok tt s).
Proof.
  intros E. split; [|split; [|split; [|split]]]; intros.
  - unfold Response.set. mcbn. now rewrite E.
  - unfold Response.set_fields. mcbn. now rewrite E.
  - unfold Response.append. mcbn. now rewrite E.
  - unfold Response.remove. mcbn. now rewrite E.
  - unfold Response.vary. mcbn. now rewrite E.
Qed.

Lemma header_mutations_ignored_once_sent_witness :
  Response.set "X-Id" (One (SNum 7)) Sample.sent_context = Ok tt Sample.sent_context /\
  Response.append "Link" (One (SStr "<a>")) Sample.sent_context = Ok tt Sample.sent_context /\
  Response.remove "ETag" Sample.sent_context = Ok tt Sample.sent_context /\
  Response.vary Sample.host "" Sample.sent_context = Ok tt Sample.sent_context.
Proof.
  destruct (header_mutations_ignored_once_sent Sample.host Sample.sent_context eq_refl)
    as (Hset & _ & Happend & Hremove & Hvary).
  split; [apply Hset|]. split; [apply Happend|]. split; [apply Hremove | apply Hvary].
Defined.

(** C2, as the code has it: while the headers are not sent, a value that is
    not a number raises a type error, a number that is not registered raises
    a range error, both leaving the state as it was, and a registered code is
    what [status] reads afterwards. *)
Theorem set_status_validates (H : Host) (s : State) :
  headersSent (res s) = false ->
  (forall v, is_number v = false ->
     Response.set_status H v s
     = Throw (TypeError "non-numeric status code: %j" v) s) /\
  (forall n, truthy (statuses_at H n) = false ->
     Response.set_status H (VNum n) s
     = Throw (RangeError "invalid status code: %d" (VNum n)) s) /\
  (forall n, truthy (statuses_at H n) = true ->
     exists s', (Response.set_status H (VNum n) ;; Response.status) s = Ok n s').
Proof.
  intros E. split; [|split].
  - intros v Hv. unfold Response.set_status, Response.call_depth.
    rewrite set_status_fuel_eq. mcbn. rewrite E.
    destruct v; try discriminate; reflexivity.
  - intros n Hn. unfold Response.set_status, Response.call_depth.
    rewrite set_status_fuel_eq. mcbn. rewrite E, Hn. reflexivity.
  - intros n Hn. unfold Response.set_status, Response.call_depth.
    unfold bind.
    destruct (truthy (_body s) && empty_at H n) eqn:B.
    + apply andb_prop in B as [B1 B2].
      rewrite set_status_nulls by assumption.
      eexists. mrun. rewrite drop_stream_res, apply_status_statusCode. reflexivity.
    + rewrite set_status_plain by assumption.
      eexists. mrun. rewrite apply_status_statusCode. reflexivity.
Qed.

Lemma set_status_validates_witness :
  Response.set_status Sample.host (VStr "200") Sample.fresh_context
  = Throw (TypeError "non-numeric status code: %j" (VStr "200")) Sample.fresh_context /\
  Response.set_status Sample.host (VNum (Int 999)) Sample.fresh_context
  = Throw (RangeError "invalid status code: %d" (VNum (Int 999))) Sample.fresh_context /\
  exists s', (Response.set_status Sample.host (VNum (Int 204)) ;; Response.status)
               Sample.fresh_context = Ok (Int 204) s'.
Proof.
  destruct (set_status_validates Sample.host Sample.fresh_context eq_refl)
    as (Htype & Hrange & Hok).
  split; [|split].
  - apply Htype. reflexivity.
  - apply Hrange. reflexivity.
  - apply Hok. reflexivity.
Defined.

(** C2 fails as stated: once the headers are sent, a status that is not a
    number raises nothing. *)
Lemma set_status_unchecked_once_sent :
  headersSent (res Sample.sent_context) = true /\
  is_number (VStr "abc") = false /\
  Response.set_status Sample.host (VStr "abc") Sample.sent_context
  = Ok tt Sample.sent_context /\
  Response.set_status Sample.host (VStr "abc") Sample.sent_context
  <> Throw (TypeError "non-numeric status code: %j" (VStr "abc")) Sample.sent_context.
Proof.
  split; [reflexivity|]. split; [reflexivity|]. split; [reflexivity|]. discriminate.
Qed.

(** C1, as the code has it: while the headers are not sent, setting the
    status to a registered empty-body code over a truthy body (one that is
    neither [null] nor [undefined], nor the empty string, zero, [NaN] or
    [false]) leaves the body [null]; and from a new context, [status = n;
    body = 'x'; status = n] leaves the body [null], for every such code [n]. *)
Theorem empty_status_nulls_body (H : Host) (n : Number) :
  truthy (statuses_at H n) = true ->
  empty_at H n = true ->
  (forall s, headersSent (res s) = false -> truthy (_body s) = true ->
     exists s', Response.set_status H (VNum n) s = Ok tt s' /\ _body s' = VNull) /\
  (forall trust rq rs, headersSent rs = false ->
     exists s',
       (Response.set_status H (VNum n) ;;
        Response.set_body H (VStr "x") ;;
        Response.set_status H (VNum n)) (createContext trust rq rs) = Ok tt s' /\
       _body s' = VNull).
Proof.
  intros R Em.
  assert (General : forall s, headersSent (res s) = false -> truthy (_body s) = true ->
     exists s', Response.set_status H (VNum n) s = Ok tt s' /\ _body s' = VNull /\
                headersSent (res s') = false).
  { intros s E B. unfold Response.set_status, Response.call_depth.
    rewrite set_status_nulls by assumption.
    eexists. split; [reflexivity|]. split; [reflexivity|].
    mcbn. now rewrite drop_stream_res, apply_status_headersSent. }
  split.
  - intros s E B. destruct (General s E B) as (s' & Hs & Hb & _). eauto.
  - intros trust rq rs E.
    unfold bind at 1. unfold Response.set_status at 1, Response.call_depth.
    rewrite set_status_plain by (try assumption; reflexivity).
    set (s1 := apply_status H n (createContext trust rq rs)).
    assert (E1 : headersSent (res s1) = false)
      by (unfold s1; now rewrite apply_status_headersSent).
    assert (X1 : _explicitStatus s1 = true) by apply apply_status_explicit.
    assert (B1 : _body s1 = VNull) by (unfold s1; now rewrite apply_status_body).
    unfold bind at 1. unfold Response.set_body, Response.call_depth.
    rewrite set_body_value by (try (left; assumption); try assumption; reflexivity).
    match goal with
    | |- exists s', Response.set_status _ _ ?s2 = _ /\ _ =>
        destruct (General s2) as (s' & Hs & Hb & _); [unsent | now frame | eauto]
    end.
Qed.

Lemma empty_status_nulls_body_witness :
  exists s',
    (Response.set_status Sample.host (VNum (Int 204)) ;;
     Response.set_body Sample.host (VStr "x") ;;
     Response.set_status Sample.host (VNum (Int 204)))
      (createContext false Sample.request Sample.response) = Ok tt s' /\
    _body s' = VNull.
Proof.
  destruct (empty_status_nulls_body Sample.host (Int 204) eq_refl eq_refl) as [_ Hround].
  apply Hround. reflexivity.
Defined.

(** C1 fails as stated: once the headers are sent, setting the empty-body
    status 204 leaves the body ['x'] in place. *)
Lemma empty_status_keeps_body_once_sent :
  let run :=
    (Response.set_body Sample.host (VStr "x") ;;
     Response.flushHeaders ;;
     gets _body) Sample.fresh_context in
  let run' :=
    (Response.set_body Sample.host (VStr "x") ;;
     Response.flushHeaders ;;
     Response.set_status Sample.host (VNum (Int 204)) ;;
     gets _body) Sample.fresh_context in
  empty_at Sample.host (Int 204) = true /\
  (exists s, run = Ok (VStr "x") s) /\
  (exists s, run' = Ok (VStr "x") s) /\
  nullish (VStr "x") = false.
Proof.
  split; [reflexivity|]. split; [eexists; reflexivity|]. split; [eexists; reflexivity|].
  reflexivity.
Qed.

(** The other body that survives an empty-body status: the empty string,
    which is not [null] and not truthy. *)
Example empty_status_keeps_empty_string :
  final_body ((Response.set_body Sample.host (VStr "") ;;
               Response.set_status Sample.host (VNum (Int 204))) Sample.fresh_context)
  = Some (VStr "").
Proof. reflexivity. Qed.

(** C3, as the code has it: while the headers are not sent and the status is
    not an empty-body one, setting the body to [null] or [undefined] makes
    the status 204 and leaves no [Content-Type], [Content-Length] or
    [Transfer-Encoding] header. *)
Theorem null_body_forces_204 (H : Host) (v : JsVal) (s : State) :
  truthy (statuses_at H (Int 204)) = true ->
  headersSent (res s) = false ->
  nullish v = true ->
  empty_at H (statusCode (res s)) = false ->
  exists s',
    Response.set_body H v s = Ok tt s' /\
    _body s' = v /\
    statusCode (res s') = Int 204 /\
    res_headers (res s') !! "content-type" = None /\
    res_headers (res s') !! "content-length" = None /\
    res_headers (res s') !! "transfer-encoding" = None.
Proof.
  intros R E N Em. unfold Response.set_body, Response.call_depth.
  rewrite set_body_null_other by assumption.
  eexists. split; [reflexivity|]. split; [|split; [|split; [|split]]].
  - mcbn. now rewrite apply_status_body.
  - mcbn. now rewrite apply_status_statusCode.
  - apply strip_content_headers. tauto.
  - apply strip_content_headers. tauto.
  - apply strip_content_headers. tauto.
Qed.

Lemma null_body_forces_204_witness :
  exists s',
    Response.set_body Sample.host VNull Sample.fresh_context = Ok tt s' /\
    _body s' = VNull /\
    statusCode (res s') = Int 204 /\
    res_headers (res s') !! "content-type" = None /\
    res_headers (res s') !! "content-length" = None /\
    res_headers (res s') !! "transfer-encoding" = None.
Proof.
  apply (null_body_forces_204 Sample.host VNull Sample.fresh_context); reflexivity.
Defined.

(** C3 fails as stated: once the headers are sent, setting the body to
    [null] leaves the status at 200 and the [Content-Type] header in place. *)
Lemma null_body_ignored_once_sent :
  let before :=
    (Response.set_body Sample.host (VStr "x") ;;
     Response.flushHeaders) Sample.fresh_context in
  let after :=
    (Response.set_body Sample.host (VStr "x") ;;
     Response.flushHeaders ;;
     Response.set_body Sample.host VNull) Sample.fresh_context in
  final_status before = Some (Int 200) /\
  empty_at Sample.host (Int 200) = false /\
  final_status after = Some (Int 200) /\
  final_header "content-type" after = Some (HStr "text/plain; charset=utf-8").
Proof. repeat split. Qed.

(** C4, as the code has it: while the headers are not sent, a body that is
    not [null] is stored; the status becomes 200 unless one was set; a
    [Content-Type] that middleware set stays for a string, a buffer or a
    stream, and without one the type is inferred (html or text for a string,
    bin for a buffer or a stream, json for any other value);
    [Content-Length] is the byte length of a string or buffer, is removed for
    any other value, and for a stream is removed when the stream replaces
    another body that was not [null], and kept otherwise. *)
Theorem body_infers_content (H : Host) (v : JsVal) (s : State) :
  truthy (statuses_at H (Int 200)) = true ->
  empty_at H (Int 200) = false ->
  headersSent (res s) = false ->
  nullish v = false ->
  exists s',
    Response.set_body H v s = Ok tt s' /\
    _body s' = v /\
    statusCode (res s') = (if _explicitStatus s then statusCode (res s) else Int 200) /\
    let ct := res_headers (res s) !! "content-type" in
    let cl := res_headers (res s) !! "content-length" in
    let ct' := res_headers (res s') !! "content-type" in
    let cl' := res_headers (res s') !! "content-length" in
    match v with
    | VStr str =>
        ct' = (if truthy_header ct then ct
               else type_header H (if looks_like_markup str then "html" else "text")) /\
        cl' = Some (HStr (pretty (byteLength H str)))
    | VBuffer _ data =>
        ct' = (if truthy_header ct then ct else type_header H "bin") /\
        cl' = Some (HStr (pretty (Z.of_nat (List.length data))))
    | VStream _ =>
        ct' = (if truthy_header ct then ct else type_header H "bin") /\
        cl' = (if negb (nullish (_body s)) && negb (strict_eq (_body s) v)
               then None else cl)
    | _ =>
        (truthy_header ct = false -> ct' = type_header H "json") /\
        cl' = None
    end.
Proof.
  intros R Em E N. unfold Response.set_body, Response.call_depth.
  rewrite set_body_value by (try assumption; right; split; assumption).
  eexists. split; [reflexivity|]. split; [now frame|]. split.
  { frame. rewrite default_status_statusCode. frame. reflexivity. }
  cbv zeta. unfold infer_content. cbv zeta.
  rewrite default_status_headers. frame.
  set (hs := res_headers (res s)).
  destruct (truthy_header (hs !! "content-type")) eqn:T; cbn [negb];
    destruct v; try discriminate N; mcbn; rewrite ?default_status_headers; frame;
    fold hs;
    try destruct (negb _ && negb _); mcbn; rewrite ?default_status_headers; frame;
    fold hs;
    rewrite ?lookup_insert_eq, ?lookup_delete_eq;
    rewrite ?lookup_insert_ne, ?lookup_delete_ne by discriminate;
    rewrite ?lookup_put_header, ?lookup_put_header_ne by discriminate;
    rewrite ?lookup_insert_eq, ?lookup_delete_eq;
    (split; [try reflexivity; try discriminate | try reflexivity]).
Qed.

Lemma body_infers_content_witness :
  exists s',
    Response.set_body Sample.host (VStr "<p>hi</p>") Sample.fresh_context = Ok tt s' /\
    _body s' = VStr "<p>hi</p>" /\
    statusCode (res s') = Int 200 /\
    res_headers (res s') !! "content-type" = Some (HStr "text/html; charset=utf-8") /\
    res_headers (res s') !! "content-length" = Some (HStr "9").
Proof.
  destruct (body_infers_content Sample.host (VStr "<p>hi</p>") Sample.fresh_context
              eq_refl eq_refl eq_refl eq_refl) as (s' & Hrun & Hb & Hst & Hct & Hcl).
  exists s'. split; [exact Hrun|]. split; [exact Hb|]. split; [exact Hst|].
  split; [exact Hct | exact Hcl].
Defined.

(** C4 fails as stated: once the headers are sent, a string body set on a
    response without [Content-Type] and without an explicit status infers no
    type and leaves the status where it was. *)
Lemma body_infers_nothing_once_sent :
  let after := Response.set_body Sample.host (VStr "x") Sample.sent_context in
  _explicitStatus Sample.sent_context = false /\
  res_headers (res Sample.sent_context) !! "content-type" = None /\
  final_body after = Some (VStr "x") /\
  final_header "content-type" after = None /\
  final_header "content-length" after = None /\
  final_status after = Some (Int 404).
Proof. repeat split. Qed.

(** A structured body replaces a [Content-Type] that was set before it, where
    a string, a buffer or a stream keeps it. *)
Example structured_body_replaces_type :
  let typed := Response.set "Content-Type" (One (SStr "application/xml")) in
  final_header "content-type"
    ((typed ;; Response.set_body Sample.host (VObject 1)) Sample.fresh_context)
  = Some (HStr "application/json; charset=utf-8") /\
  final_header "content-type"
    ((typed ;; Response.set_body Sample.host (VStr "<a/>")) Sample.fresh_context)
  = Some (HStr "application/xml").
Proof. split; reflexivity. Qed.

(** A stream assigned where there was no body keeps a [Content-Length] set
    before it; one that replaces another body loses it. *)
Example stream_body_and_length :
  let sized := Response.set "Content-Length" (One (SNum 12)) in
  final_header "content-length"
    ((sized ;; Response.set_body Sample.host (VStream 1)) Sample.fresh_context)
  = Some (HStr "12") /\
  final_header "content-length"
    ((Response.set_body Sample.host (VStr "x") ;;
      Response.set_body Sample.host (VStream 1)) Sample.fresh_context)
  = None.
Proof. split; reflexivity. Qed.

(** C7, as the code has it: while the headers are not sent, and for a status
    that is a redirect code only if it was set through the setter,
    [redirect(url, alt)] resolves ['back'] to the request's [Referrer] (or
    [Referer]) header, else [alt], else ['/']; when the target is a header
    value the transport accepts (it holds no control character but the tab),
    it sets [Location] to the target; makes the status 302 unless it is a
    redirect code already; and leaves as body the anchor text over the
    escaped target when the request accepts html, the plain text naming the
    target otherwise. *)
Theorem redirect_sets_location_status_body (H : Host) (url : string)
    (alt : option string) (s : State) :
  truthy (statuses_at H (Int 302)) = true ->
  headersSent (res s) = false ->
  (redirect_at H (statusCode (res s)) = true -> _explicitStatus s = true) ->
  let referrer :=
    if String.eqb (Request.header_at "referrer" s) ""
    then Request.header_at "referer" s
    else Request.header_at "referrer" s in
  let fallback :=
    match alt with
    | Some a => if String.eqb a "" then "/" else a
    | None => "/"
    end in
  let target :=
    if String.eqb "back" url
    then (if String.eqb referrer "" then fallback else referrer)
    else url in
  valid_text target = true ->
  exists s',
    Response.redirect H url alt s = Ok tt s' /\
    res_headers (res s') !! "location" = Some (HStr target) /\
    statusCode (res s')
    = (if redirect_at H (statusCode (res s)) then statusCode (res s) else Int 302) /\
    _body s'
    = VStr (if accepts_types H (req_headers (req s)) "html"
            then "Redirecting to <a href=" +:+ Response.quote +:+ escape H target
                 +:+ Response.quote +:+ ">" +:+ escape H target +:+ "</a>."
            else "Redirecting to " +:+ target +:+ ".").
Proof.
  intros R E X referrer fallback target Vt.
  unfold Response.redirect.
  unfold bind at 1, Request.get at 1, gets at 1.
  replace (toLowerCase "Referrer") with "referrer" by reflexivity.
  cbn [String.eqb Ascii.eqb Bool.eqb orb].
  replace (if String.eqb "back" url then _ else url) with target.
  2:{ unfold target, referrer, fallback, Request.or_else.
      destruct (String.eqb "back" url); [|reflexivity].
      set (a := Request.header_at "referrer" s).
      set (b := Request.header_at "referer" s).
      destruct (String.eqb a "") eqn:Ea; destruct (String.eqb b "") eqn:Eb;
        cbn [String.eqb]; rewrite ?Ea, ?Eb; try reflexivity.
      destruct alt as [c|]; cbn [default String.eqb]; reflexivity. }
  clearbody target. clear referrer fallback.
  unfold bind at 1. rewrite set_unsent by (assumption || reflexivity).
  replace (toLowerCase "Location") with "location" by reflexivity.
  set (s1 := with_res _ s).
  assert (E1 : headersSent (res s1) = false) by (unfold s1; unsent).
  unfold bind at 1, Response.status at 1, gets at 1.
  replace (statusCode (res s1)) with (statusCode (res s)) by reflexivity.
  assert (Step : exists s2,
    when (negb (redirect_at H (statusCode (res s))))
         (Response.set_status H (VNum (Int 302))) s1 = Ok tt s2 /\
    headersSent (res s2) = false /\ _explicitStatus s2 = true /\
    req s2 = req s /\
    res_headers (res s2) !! "location" = Some (HStr target) /\
    statusCode (res s2)
    = (if redirect_at H (statusCode (res s)) then statusCode (res s) else Int 302)).
  { destruct (redirect_at H (statusCode (res s))) eqn:Rd; cbn [negb when].
    - exists s1. unfold s1. mcbn. rewrite lookup_insert_eq.
      repeat split; auto.
    - unfold Response.set_status, Response.call_depth.
      destruct (truthy (_body s1) && empty_at H (Int 302)) eqn:B.
      + apply andb_prop in B as [B1 B2].
        rewrite set_status_nulls by assumption. eexists. split; [reflexivity|].
        unfold s1. frame.
        rewrite !lookup_delete_ne by discriminate. rewrite lookup_insert_eq.
        repeat split; auto.
      + rewrite set_status_plain by assumption. eexists. split; [reflexivity|].
        unfold s1. frame. rewrite lookup_insert_eq. repeat split; auto. }
  destruct Step as (s2 & Hs2 & E2 & X2 & Rq2 & L2 & St2).
  unfold bind at 1. rewrite Hs2.
  unfold bind at 1, gets at 1. rewrite Rq2.
  destruct (accepts_types H (req_headers (req s)) "html").
  - unfold bind at 1. rewrite set_type_unsent by (assumption || reflexivity).
    unfold Response.set_body, Response.call_depth.
    rewrite set_body_value by (try (left; unsent); unsent).
    eexists. split; [reflexivity|]. split; [|split].
    + rewrite infer_content_other by discriminate. frame.
      now rewrite lookup_put_header_ne by discriminate.
    + frame. rewrite default_status_statusCode. frame. now rewrite X2.
    + now frame.
  - unfold bind at 1. rewrite set_type_unsent by (assumption || reflexivity).
    unfold Response.set_body, Response.call_depth.
    rewrite set_body_value by (try (left; unsent); unsent).
    eexists. split; [reflexivity|]. split; [|split].
    + rewrite infer_content_other by discriminate. frame.
      now rewrite lookup_put_header_ne by discriminate.
    + frame. rewrite default_status_statusCode. frame. now rewrite X2.
    + now frame.
Qed.

Lemma redirect_sets_location_status_body_witness :
  exists s',
    Response.redirect Sample.host "back" None
      (createContext false Sample.referred_request Sample.response) = Ok tt s' /\
    res_headers (res s') !! "location" = Some (HStr "/prev") /\
    statusCode (res s') = Int 302 /\
    _body s' = VStr ("Redirecting to <a href=" +:+ Response.quote +:+ "/prev"
                     +:+ Response.quote +:+ ">/prev</a>.").
Proof.
  apply (redirect_sets_location_status_body Sample.host "back" None
           (createContext false Sample.referred_request Sample.response)).
  - reflexivity.
  - reflexivity.
  - discriminate.
  - reflexivity.
Defined.

(** C7 fails as stated: once the headers are sent, [redirect('/login')]
    sets no [Location] header and leaves the status, which is not a redirect
    code, at 404. *)
Lemma redirect_ignored_once_sent :
  let after := Response.redirect Sample.host "/login" None Sample.sent_context in
  redirect_at Sample.host (statusCode (res Sample.sent_context)) = false /\
  final_header "location" after = None /\
  final_status after = Some (Int 404).
Proof. repeat split. Qed.

Lemma valid_fields_cons k v (l : list (string * HeaderArg)) :
  valid_fields ((k, v) :: l) = true ->
  valid_name k = true /\ valid_value (stored v) = true /\ valid_fields l = true.
Proof.
  unfold valid_fields. cbn [forallb fst snd]. intros V.
  apply andb_prop in V as [Vkv V]. apply andb_prop in Vkv as [Vk Vv]. auto.
Qed.

(** A target with a line break is refused by the transport: [redirect]
    raises a type error, and nothing is set. *)
Example redirect_refuses_line_break :
  let url := "/a" +:+ String (ascii_of_N 13) (String (ascii_of_N 10) "Set-Cookie: x=1") in
  valid_text url = false /\
  Response.redirect Sample.host url None Sample.fresh_context
  = Throw (TypeError "Invalid character in header content [%s]" (VStr "Location"))
          Sample.fresh_context.
Proof. split; reflexivity. Qed.

Lemma for_each_set_unsent (l : list (string * HeaderArg)) (s : State) :
  headersSent (res s) = false ->
  valid_fields l = true ->
  exists hs,
    for_each l (fun kv => Response.set (fst kv) (snd kv)) s
    = Ok tt (with_res (with_headers (fun _ => hs)) s).
Proof.
  revert s. induction l as [|[k v] l IH]; intros s E V.
  - exists (res_headers (res s)). destruct s as [rq [] ex bd px em ds fn ij]. reflexivity.
  - apply valid_fields_cons in V as (Vk & Vv & V).
    cbn [for_each fst snd]. unfold bind at 1. rewrite set_unsent by assumption.
    destruct (IH (with_res (with_headers
                 (insert (toLowerCase k)
                    match v with
                    | Many xs => HList (map String_ xs)
                    | One x => HStr (String_ x)
                    end)) s)) as [hs Hhs]; [unsent | exact V |].
    exists hs. rewrite Hhs. reflexivity.
Qed.

Lemma set_fields_unsent (l : list (string * HeaderArg)) (s : State) :
  headersSent (res s) = false ->
  valid_fields l = true ->
  exists hs, Response.set_fields l s = Ok tt (with_res (with_headers (fun _ => hs)) s).
Proof.
  intros E V. unfold Response.set_fields. unfold bind at 1, Response.get_headersSent, gets.
  rewrite E. now apply for_each_set_unsent.
Qed.

Lemma statuses_at_phrase (H : Host) (n : Number) :
  truthy (statuses_at H n) = true -> exists phrase, statuses_at H n = VStr phrase.
Proof.
  unfold statuses_at. destruct n; try discriminate.
  destruct (statuses H z); [eauto | discriminate].
Qed.




(** An error with a header name that is no token: the handler emits the
    error and raises when it sets the header, with no status set and nothing
    written. *)
Example onerror_refuses_invalid_header :
  let e := mkError "name is required" CodeNone (VNum (Int 400)) (VBool false)
                   [("Bad Name", One (SStr "1"))] false in
  valid_fields (err_headers e) = false /\
  match Ctx.onerror Sample.host (Some (ThrownError e)) Sample.fresh_context with
  | Throw (TypeError _ name) s' =>
      name = VStr "Bad Name" /\
      emitted s' = [e] /\ statusCode (res s') = Int 404 /\ ended (res s') = []
  | _ => False
  end.
Proof. split; [reflexivity|]. vm_compute. repeat split. Qed.

(** [fresh] reads the property [status] of the transport response: where the
    transport defines none, as Node's does, the answer is [false] whatever
    the method, the response status and the headers. *)
Lemma fresh_false_without_status_property (H : Host) (s : State) :
  status_prop (res s) = None -> Request.fresh H s = Ok false s.
Proof.
  intros E. unfold Request.fresh. mrun. rewrite E. cbn [Request.in_fresh_range].
  destruct (negb _ && negb _); reflexivity.
Qed.

(** [fresh] is [false] for a method that is neither GET nor HEAD. *)
Lemma fresh_false_for_other_methods (H : Host) (s : State) :
  method (req s) <> "GET" -> method (req s) <> "HEAD" ->
  Request.fresh H s = Ok false s.
Proof.
  intros G Hd. unfold Request.fresh. mrun.
  apply String.eqb_neq in G, Hd. rewrite String.eqb_sym in G, Hd.
  rewrite G, Hd. reflexivity.
Qed.

(** No operation on the response view gives the transport response a
    [status] property: [createContext] and the status setter leave it as
    the transport has it. *)
Lemma status_prop_after_set_status (H : Host) (n : Number) (s s' : State) :
  Response.set_status H (VNum n) s = Ok tt s' ->
  status_prop (res s') = status_prop (res s).
Proof.
  unfold Response.set_status, Response.call_depth. intros Hrun.
  destruct (headersSent (res s)) eqn:E.
  - rewrite set_status_sent in Hrun by assumption. congruence.
  - destruct (truthy (statuses_at H n)) eqn:R.
    + destruct (truthy (_body s) && empty_at H n) eqn:B.
      * apply andb_prop in B as [B1 B2].
        rewrite set_status_nulls in Hrun by assumption.
        injection Hrun as <-. mcbn. rewrite drop_stream_res.
        unfold apply_status. mcbn. destruct (_ <? _); reflexivity.
      * rewrite set_status_plain in Hrun by assumption.
        injection Hrun as <-.
        unfold apply_status. mcbn. destruct (_ <? _); reflexivity.
    + rewrite set_status_fuel_eq in Hrun. mrun. rewrite E, R in Hrun. discriminate.
Qed.

(** C8: for a GET request and a response whose status is 200, the validators
    of the request match the response ([fresh] of the package answers
    [true] on the two header sets), and [request.fresh] answers [false]: it
    reads [res.status], which the transport response does not have, where
    the status is [res.statusCode]. *)
Theorem fresh_misses_response_status :
  exists s,
    Sample.validated_exchange = Ok tt s /\
    method (req s) = "GET" /\
    statusCode (res s) = Int 200 /\
    status_prop (res s) = None /\
    fresh_lib Sample.host (Some (req_headers (req s))) (Some (res_headers (res s)))
    = inr true /\
    Request.fresh Sample.host s = Ok false s.
Proof.
  eexists. split; [vm_compute; reflexivity|]. repeat split.
Qed.

(** Were the status read where it is, the comparison would still not be
    made on the headers: [this.header] is not a property of the views. *)
Example fresh_with_status_property :
  let s := createContext false Sample.conditional_request
             (mkRes false false false (Some true) (Int 200) VUndefined ∅ (Some 200) []) in
  Request.fresh Sample.host s
  = Throw (TypeError "Cannot read property of undefined" VUndefined) s.
Proof. reflexivity. Qed.

(** C9, as the code has it: [ips] is the one-element list of the socket's
    remote address when the application does not trust proxies; when it
    does, the pieces of [X-Forwarded-For] split at commas with the white
    space around them, and the empty list when that header is absent or
    empty. *)
Theorem ips_by_proxy_trust (s : State) :
  Request.ips s
  = Ok (if proxy s then
          match req_headers (req s) !! "x-forwarded-for" with
          | Some forwarded =>
              if String.eqb forwarded "" then [] else map VStr (split_commas forwarded)
          | None => []
          end
        else [remoteAddress (req s)]) s.
Proof.
  unfold Request.ips, Request.get. mrun.
  destruct (proxy s); cbn [negb]; [|reflexivity].
  replace (toLowerCase "X-Forwarded-For") with "x-forwarded-for" by reflexivity.
  cbn [String.eqb Ascii.eqb Bool.eqb orb].
  unfold Request.or_else, Request.header_at.
  destruct (req_headers (req s) !! "x-forwarded-for") as [fwd|]; cbn [default]; unfold id.
  - destruct (String.eqb fwd "") eqn:Ef; cbn [String.eqb negb]; [reflexivity|].
    rewrite Ef. reflexivity.
  - reflexivity.
Qed.

(** C9 fails as stated: with proxies trusted and no [X-Forwarded-For], the
    result is the empty list, not the socket's address. *)
Lemma ips_empty_when_trusted_without_header :
  let s := createContext true Sample.request Sample.response in
  req_headers (req s) !! "x-forwarded-for" = None /\
  remoteAddress (req s) = VStr "10.0.0.7" /\
  Request.ips s = Ok [] s /\
  Request.ips s <> Ok [VStr "10.0.0.7"] s.
Proof.
  split; [reflexivity|]. split; [reflexivity|]. split; [reflexivity|]. discriminate.
Qed.

Example ips_of_forwarded_chain :
  let rq := mkReq "GET" {["x-forwarded-for" := "client, proxy1 ,proxy2"]} 1
                  (VStr "10.0.0.7") in
  Request.ips (createContext true rq Sample.response)
  = Ok [VStr "client"; VStr "proxy1"; VStr "proxy2"]
       (createContext true rq Sample.response).
Proof. reflexivity. Qed.

(** ** The bound on nested calls is never met *)

Section Adequacy.
Context (H : Host).

Lemma remove_sent f s :
  headersSent (res s) = true -> Response.remove f s = Ok tt s.
Proof. intros E. unfold Response.remove. mrun. now rewrite E. Qed.

Lemma set_sent f v s :
  headersSent (res s) = true -> Response.set f v s = Ok tt s.
Proof. intros E. unfold Response.set. mrun. now rewrite E. Qed.

Lemma set_type_sent type s :
  headersSent (res s) = true -> Response.set_type H type s = Ok tt s.
Proof.
  intros E. unfold Response.set_type.
  destruct (contentType H type) as [t|]; [destruct (negb _)|];
    now rewrite ?remove_sent, ?set_sent.
Qed.

Lemma set_status_adequate code s :
  exists o, o <> OutOfFuel /\
    forall f, Response.set_status_fuel H (S (S f)) code s = o.
Proof.
  destruct (headersSent (res s)) eqn:E.
  { exists (Ok tt s). split; [discriminate|]. intros f. now apply set_status_sent. }
  destruct code as [| |b|n|str|r d|i|i];
    try (eexists (Throw _ s); split; [discriminate|]; intros f;
         rewrite set_status_fuel_eq; mrun; rewrite E; reflexivity).
  destruct (truthy (statuses_at H n)) eqn:R.
  - destruct (truthy (_body s) && empty_at H n) eqn:B.
    + apply andb_prop in B as [B1 B2]. eexists. split; [|intros f].
      2: now apply set_status_nulls. discriminate.
    + eexists. split; [|intros f]. 2: now apply set_status_plain. discriminate.
  - eexists (Throw _ s). split; [discriminate|]. intros f.
    rewrite set_status_fuel_eq. mrun. rewrite E, R. reflexivity.
Qed.

Lemma set_status_stable f code s :
  Response.set_status_fuel H (S (S f)) code s = Response.set_status_fuel H 2 code s.
Proof.
  destruct (set_status_adequate code s) as (o & _ & Ho). now rewrite !Ho.
Qed.

Lemma bind_ext_l {A B} (m m' : M A) (k : A -> M B) s :
  m s = m' s -> bind m k s = bind m' k s.
Proof. intros E. unfold bind. now rewrite E. Qed.

Lemma bind_ext_r {A B} (m : M A) (k k' : A -> M B) s :
  (forall a s', k a s' = k' a s') -> bind m k s = bind m k' s.
Proof. intros E. unfold bind. destruct (m s); auto. Qed.

Lemma set_body_stable f val s :
  Response.set_body_fuel H (S (S (S f))) val s = Response.set_body_fuel H 3 val s.
Proof.
  destruct (nullish val) eqn:N.
  - rewrite !set_body_fuel_null by assumption.
    do 4 (apply bind_ext_r; intros). apply bind_ext_l.
    destruct (negb _); [apply set_status_stable | reflexivity].
  - rewrite !set_body_fuel_value by assumption.
    do 4 (apply bind_ext_r; intros). apply bind_ext_l.
    destruct (negb _); [apply set_status_stable | reflexivity].
Qed.

Lemma returns_bind {A B} (m : M A) (k : A -> M B) :
  returns m -> (forall a, returns (k a)) -> returns (bind m k).
Proof.
  intros Hm Hk s. unfold bind. specialize (Hm s).
  destruct (m s); [apply Hk | discriminate | congruence].
Qed.

Lemma returns_when b (m : M unit) : returns m -> returns (when b m).
Proof. intros Hm. destruct b; [exact Hm | discriminate]. Qed.

Lemma returns_gets {A} (f : State -> A) : returns (gets f).
Proof. discriminate. Qed.

Lemma returns_modify f : returns (modify f).
Proof. discriminate. Qed.

Lemma returns_remove f : returns (Response.remove f).
Proof.
  intros s. unfold Response.remove. mrun. destruct (headersSent (res s)); discriminate.
Qed.

Lemma returns_set f v : returns (Response.set f v).
Proof.
  intros s. unfold Response.set. mrun. destruct (headersSent (res s)); [discriminate|].
  destruct (valid_name f); cbn [negb]; [|discriminate].
  destruct (valid_value _); cbn [negb]; discriminate.
Qed.

Lemma returns_set_type type : returns (Response.set_type H type).
Proof.
  unfold Response.set_type.
  destruct (contentType H type) as [t|]; [destruct (negb _)|];
    auto using returns_remove, returns_set.
Qed.

Lemma returns_destroy v : returns (Response.destroy v).
Proof. destruct v; discriminate. Qed.

Lemma returns_set_status f code : returns (Response.set_status_fuel H (S (S f)) code).
Proof.
  intros s. destruct (set_status_adequate code s) as (o & Ho & Hf). now rewrite Hf.
Qed.

Lemma returns_set_body f val : returns (Response.set_body_fuel H (S (S (S f))) val).
Proof.
  destruct (nullish val) eqn:N;
    [rewrite set_body_fuel_null by assumption
    |rewrite set_body_fuel_value by assumption];
    cbv zeta; unfold Response.set_length;
    repeat lazymatch goal with
      | |- returns (bind _ _) => apply returns_bind; [|intros]
      | |- returns (when _ _) => apply returns_when
      | |- returns (gets _) => apply returns_gets
      | |- returns (modify _) => apply returns_modify
      | |- returns Response.status => apply returns_gets
      | |- returns Response.headers => apply returns_gets
      | |- returns (Response.remove _) => apply returns_remove
      | |- returns (Response.set _ _) => apply returns_set
      | |- returns (Response.set_type _ _) => apply returns_set_type
      | |- returns (Response.destroy _) => apply returns_destroy
      | |- returns (Response.set_status_fuel _ _ _) => apply returns_set_status
      | |- returns (match ?v with _ => _ end) => destruct v
      end.
Qed.
End Adequacy.

(** The setters return or raise, whatever the collaborators and the state. *)
Theorem setters_return (H : Host) (v : JsVal) :
  returns (Response.set_status H v) /\ returns (Response.set_body H v).
Proof. split; [apply returns_set_status | apply returns_set_body]. Qed.

(** A larger bound changes nothing. *)
Theorem call_depth_suffices (H : Host) (f : nat) (v : JsVal) (s : State) :
  Response.set_status_fuel H (Response.call_depth + f) v s = Response.set_status H v s /\
  Response.set_body_fuel H (Response.call_depth + f) v s = Response.set_body H v s.
Proof.
  unfold Response.set_status, Response.set_body, Response.call_depth. split.
  - cbn [Nat.add]. rewrite (set_status_stable H (S f)), (set_status_stable H 1). reflexivity.
  - cbn [Nat.add]. apply set_body_stable.
Qed.

(** ** Splitting at commas *)

Lemma commas_app l1 l2 : commas (l1 ++ l2)%list = (commas l1 + commas l2)%nat.
Proof. unfold commas. now rewrite List.filter_app, List.length_app. Qed.

Lemma commas_rev l : commas (rev l) = commas l.
Proof.
  induction l as [|c l IH]; [reflexivity|].
  cbn [rev]. rewrite commas_app, IH. unfold commas. cbn [List.filter].
  destruct (is_char 44 c); cbn [List.length]; lia.
Qed.

(** One piece more than there are commas, and no comma in any piece. *)
Lemma split_go_pieces s : forall tok ws skip,
  commas tok = 0%nat -> commas ws = 0%nat ->
  List.length (split_go s tok ws skip) = S (commas (list_ascii_of_string s)) /\
  Forall (fun p => commas (list_ascii_of_string p) = 0%nat) (split_go s tok ws skip).
Proof.
  induction s as [|c r IH]; intros tok ws skip Ht Hw; cbn [split_go list_ascii_of_string].
  - split; [reflexivity|]. constructor; [|constructor].
    now rewrite list_ascii_of_string_of_list_ascii, commas_rev, commas_app, Hw, Ht.
  - unfold commas at 1. cbn [List.filter]. fold (commas (list_ascii_of_string r)).
    destruct (is_char 44 c) eqn:Ec.
    + destruct (IH [] [] true eq_refl eq_refl) as [Hl Hf].
      split; [cbn [List.length]; now rewrite Hl|].
      constructor; [|exact Hf].
      now rewrite list_ascii_of_string_of_list_ascii, commas_rev.
    + assert (Hc : forall l, commas l = 0%nat -> commas (c :: l) = 0%nat).
      { intros l Hl. unfold commas in *. cbn [List.filter]. now rewrite Ec. }
      destruct (is_space c); [destruct skip|]; apply IH; auto.
      apply Hc. now rewrite commas_app, Hw, Ht.
Qed.

Lemma split_commas_pieces s :
  List.length (split_commas s) = S (commas (list_ascii_of_string s)) /\
  Forall (fun p => commas (list_ascii_of_string p) = 0%nat) (split_commas s).
Proof. now apply split_go_pieces. Qed.

(** ** The header store *)

Section HeaderStore.
Context (s : State) (Unsent : headersSent (res s) = false).

Lemma get_run field (t : State) :
  Response.get field t
  = Ok (if truthy_header (res_headers (res t) !! toLowerCase field)
        then default (HStr "") (res_headers (res t) !! toLowerCase field)
        else HStr "") t.
Proof. reflexivity. Qed.

Lemma truthy_header_default (o : option HeaderVal) :
  (if truthy_header o then default (HStr "") o else HStr "") = default (HStr "") o.
Proof.
  destruct o as [[str|l]|]; cbn; try reflexivity.
  destruct (String.eqb_spec str ""); cbn; congruence.
Qed.

(** X1: a header set under one spelling of its name, when the name is a
    token and the value has no control character, is read back under any
    other spelling that differs in case only, and the headers of other
    names read as before.  With any other name or value, [set] raises a
    type error and leaves the state as it was. *)
Theorem set_then_get field field' val :
  toLowerCase field' = toLowerCase field ->
  if valid_name field && valid_value (stored val) then
    (exists s', (Response.set field val ;; Response.get field') s = Ok (stored val) s') /\
    (forall other, toLowerCase other <> toLowerCase field ->
       exists v s', Response.get other s = Ok v s /\
                    (Response.set field val ;; Response.get other) s = Ok v s')
  else
    exists fmt,
      (Response.set field val ;; Response.get field') s
      = Throw (TypeError fmt (VStr field)) s.
Proof.
  intros Hcase. destruct (valid_name field && valid_value (stored val)) eqn:V.
  - apply andb_prop in V as [Vn Vv]. split.
    + unfold bind. rewrite set_unsent by assumption. rewrite get_run. mcbn.
      rewrite Hcase, lookup_insert_eq, truthy_header_default. eexists. reflexivity.
    + intros other Hne. unfold bind. rewrite set_unsent by assumption.
      rewrite !get_run. mcbn. rewrite lookup_insert_ne by congruence.
      eexists _, _. split; reflexivity.
  - destruct (set_refused field val s Unsent V) as [fmt Hrun].
    exists fmt. unfold bind. now rewrite Hrun.
Qed.

(** X2: a header removed under any spelling reads as the empty string, and the
    headers of other names read as before. *)
Theorem remove_then_get field field' :
  toLowerCase field' = toLowerCase field ->
  (exists s', (Response.remove field ;; Response.get field') s = Ok (HStr "") s') /\
  (forall other, toLowerCase other <> toLowerCase field ->
     exists v s', Response.get other s = Ok v s /\
                  (Response.remove field ;; Response.get other) s = Ok v s').
Proof.
  intros Hcase. split.
  - unfold bind. rewrite remove_unsent by assumption. rewrite get_run. mcbn.
    rewrite Hcase, lookup_delete_eq. eexists. reflexivity.
  - intros other Hne. unfold bind. rewrite remove_unsent by assumption.
    rewrite !get_run. mcbn. rewrite lookup_delete_ne by congruence.
    eexists _, _. split; reflexivity.
Qed.

Lemma values_HStr str : str <> "" -> values (HStr str) = [str].
Proof. intros Hne. cbn [values]. destruct (String.eqb_spec str ""); congruence. Qed.

Lemma concat_strings (a : list string) (val : HeaderArg) :
  match val with One x => String_ x <> "" | Many _ => True end ->
  map String_ (Response.concat (map SStr a) val) = (a ++ values (stored val))%list.
Proof.
  intros Hval. assert (Ha : map String_ (map SStr a) = a)
    by (rewrite List.map_map; apply List.map_id).
  destruct val as [x|xs]; cbn [Response.concat stored]; rewrite List.map_app, Ha.
  - now rewrite values_HStr.
  - reflexivity.
Qed.

Lemma concat_valid (a : list string) (val : HeaderArg) :
  forallb valid_text a = true -> valid_value (stored val) = true ->
  valid_value (stored (Many (Response.concat (map SStr a) val))) = true.
Proof.
  intros Ha Hv. assert (Hm : map String_ (map SStr a) = a)
    by (rewrite List.map_map; apply List.map_id).
  destruct val as [x|xs]; cbn [Response.concat stored valid_value] in *;
    rewrite List.map_app, forallb_app, Hm, Ha; cbn [map forallb andb].
  - now rewrite Hv.
  - exact Hv.
Qed.

(** X3: [append] keeps the values a header has and adds the new ones after
    them, when the name is a token and neither the new values nor those the
    header has hold a control character. *)
Theorem append_accumulates field val :
  valid_name field = true ->
  valid_value (stored val) = true ->
  (forall h, res_headers (res s) !! toLowerCase field = Some h -> valid_value h = true) ->
  match val with One x => String_ x <> "" | Many _ => True end ->
  exists before after s',
    Response.get field s = Ok before s /\
    (Response.append field val ;; Response.get field) s = Ok after s' /\
    values after = (values before ++ values (stored val))%list.
Proof.
  intros Vn Vv Vh Hval. unfold bind, Response.append.
  unfold bind at 1, Response.get_headersSent, gets. rewrite Unsent.
  unfold bind at 1. rewrite get_run, truthy_header_default.
  set (o := res_headers (res s) !! toLowerCase field) in *.
  assert (Hread : forall v, valid_value (stored v) = true -> exists s',
    match Response.set field v s with
    | Ok _ s1 => Response.get field s1
    | Throw e s1 => Throw e s1
    | OutOfFuel => OutOfFuel
    end = Ok (stored v) s').
  { intros v Hv. rewrite set_unsent by assumption. rewrite get_run. mcbn.
    rewrite lookup_insert_eq, truthy_header_default. eexists. reflexivity. }
  destruct (truthy_header (Some (default (HStr "") o))) eqn:T.
  - destruct (default (HStr "") o) as [str|l] eqn:Hd.
    + cbn [truthy_header] in T. apply negb_true_iff in T. apply String.eqb_neq in T.
      assert (Vs : forallb valid_text [str] = true).
      { destruct o as [h|]; cbn [default] in Hd; unfold id in Hd.
        - subst h. specialize (Vh _ eq_refl). cbn [valid_value] in Vh.
          cbn [forallb]. now rewrite Vh.
        - injection Hd as <-. now contradiction T. }
      destruct (Hread (Many (Response.concat [SStr str] val))
                  (concat_valid [str] val Vs Vv)) as [s' Hs'].
      eexists _, _, _. split; [reflexivity|]. split; [exact Hs'|].
      rewrite values_HStr by assumption. cbn [stored].
      change (values (HList ?l)) with l.
      now rewrite (concat_strings [str]).
    + assert (Vs : forallb valid_text l = true).
      { destruct o as [h|]; cbn [default] in Hd; unfold id in Hd; [|discriminate Hd].
        subst h. exact (Vh _ eq_refl). }
      destruct (Hread (Many (Response.concat (map SStr l) val))
                  (concat_valid l val Vs Vv)) as [s' Hs'].
      eexists _, _, _. split; [reflexivity|]. split; [exact Hs'|].
      cbn [stored]. change (values (HList ?l)) with l. now rewrite concat_strings.
  - destruct (Hread val Vv) as [s' Hs'].
    eexists _, _, _. split; [reflexivity|]. split; [exact Hs'|].
    destruct (default (HStr "") o) as [str|l]; [|discriminate T].
    cbn [truthy_header] in T. apply negb_false_iff in T. apply String.eqb_eq in T.
    subst str. reflexivity.
Qed.
End HeaderStore.

Lemma set_then_get_witness :
  exists s',
    (Response.set "X-Request-Id" (One (SNum 7)) ;; Response.get "x-request-id")
      Sample.fresh_context = Ok (HStr "7") s'.
Proof.
  exact (proj1 (set_then_get Sample.fresh_context eq_refl
                  "X-Request-Id" "x-request-id" (One (SNum 7)) eq_refl)).
Defined.

Lemma remove_then_get_witness :
  exists s',
    (Response.remove "Link" ;; Response.get "link") Example.linked_context
    = Ok (HStr "") s'.
Proof.
  exact (proj1 (remove_then_get Example.linked_context eq_refl "Link" "link" eq_refl)).
Defined.

Lemma append_accumulates_witness :
  exists before after s',
    Response.get "Link" Example.linked_context = Ok before Example.linked_context /\
    (Response.append "Link" (One (SStr "<b>")) ;; Response.get "Link")
      Example.linked_context = Ok after s' /\
    values after = (values before ++ ["<b>"])%list.
Proof.
  apply (append_accumulates Example.linked_context eq_refl "Link" (One (SStr "<b>"))).
  - reflexivity.
  - reflexivity.
  - intros h Hh. vm_compute in Hh. injection Hh as <-. reflexivity.
  - cbn. discriminate.
Defined.

(** ** Headers set in bulk, and the headers of an error *)

Lemma last_field_snoc key fields k v :
  last_field key (fields ++ [(k, v)])%list
  = if String.eqb (toLowerCase k) key then Some v else last_field key fields.
Proof.
  unfold last_field. rewrite List.rev_app_distr. cbn [rev List.app List.find fst].
  destruct (String.eqb (toLowerCase k) key); reflexivity.
Qed.

Lemma for_each_set_headers (l : list (string * HeaderArg)) : forall done s,
  headersSent (res s) = false ->
  valid_fields l = true ->
  exists s',
    for_each l (fun kv => Response.set (fst kv) (snd kv)) s = Ok tt s' /\
    headersSent (res s') = false /\
    (exists hs, s' = with_res (with_headers (fun _ => hs)) s) /\
    forall key before,
      res_headers (res s) !! key
      = match last_field key done with Some v => Some (stored v) | None => before end ->
      res_headers (res s') !! key
      = match last_field key (done ++ l) with Some v => Some (stored v) | None => before end.
Proof.
  induction l as [|[k v] l IH]; intros done s E V.
  - exists s. split; [reflexivity|]. split; [assumption|]. split.
    + exists (res_headers (res s)). destruct s as [rq [] ex bd px em ds fn ij]. reflexivity.
    + intros key before Hk. now rewrite List.app_nil_r.
  - apply valid_fields_cons in V as (Vk & Vv & V).
    cbn [for_each fst snd]. unfold bind at 1. rewrite set_unsent by assumption.
    set (s1 := with_res _ s).
    destruct (IH (done ++ [(k, v)])%list s1) as (s' & Hrun & E' & [hs Hs] & Hlook);
      [unfold s1; unsent | exact V |].
    exists s'. split; [exact Hrun|]. split; [exact E'|]. split.
    + exists hs. rewrite Hs. reflexivity.
    + intros key before Hk. rewrite (Hlook key before).
      * now rewrite <- List.app_assoc.
      * rewrite last_field_snoc. unfold s1. mcbn. fold (stored v).
        destruct (String.eqb_spec (toLowerCase k) key) as [->|Hne].
        -- apply lookup_insert_eq.
        -- now rewrite lookup_insert_ne.
Qed.

Lemma set_fields_run (fields : list (string * HeaderArg)) (s : State) :
  headersSent (res s) = false ->
  valid_fields fields = true ->
  exists hs,
    Response.set_fields fields s = Ok tt (with_res (with_headers (fun _ => hs)) s) /\
    forall key,
      hs !! key
      = match last_field key fields with
        | Some v => Some (stored v)
        | None => res_headers (res s) !! key
        end.
Proof.
  intros E V. unfold Response.set_fields.
  unfold bind at 1, Response.get_headersSent, gets. rewrite E.
  destruct (for_each_set_headers fields [] s E V) as (s' & Hrun & _ & [hs Hs] & Hlook).
  exists hs. rewrite Hrun, Hs. split; [reflexivity|]. intros key.
  specialize (Hlook key (res_headers (res s) !! key) eq_refl).
  rewrite Hs in Hlook. exact Hlook.
Qed.

(** X4: [set] with an object of fields that the transport accepts (each
    name a token, each value without control characters) leaves, under each
    name in lower case, the value of the last field of that name, spelled in
    any case, and the headers of other names as they were. *)
Theorem set_fields_last_wins (fields : list (string * HeaderArg)) (s : State) :
  headersSent (res s) = false ->
  valid_fields fields = true ->
  exists s',
    Response.set_fields fields s = Ok tt s' /\
    forall key,
      res_headers (res s') !! key
      = match last_field key fields with
        | Some v => Some (stored v)
        | None => res_headers (res s) !! key
        end.
Proof.
  intros E V. destruct (set_fields_run fields s E V) as (hs & Hrun & Hlook).
  eexists. split; [exact Hrun|]. exact Hlook.
Qed.

Lemma set_fields_last_wins_witness :
  exists s',
    Response.set_fields [("X-A", One (SStr "1")); ("x-a", One (SStr "2"));
                         ("X-B", Many [SNum 3; SNum 4])] Sample.fresh_context
    = Ok tt s' /\
    res_headers (res s') !! "x-a" = Some (HStr "2") /\
    res_headers (res s') !! "x-b" = Some (HList ["3"; "4"]).
Proof.
  destruct (set_fields_last_wins
              [("X-A", One (SStr "1")); ("x-a", One (SStr "2"));
               ("X-B", Many [SNum 3; SNum 4])] Sample.fresh_context eq_refl eq_refl)
    as (s' & Hrun & Hkeys).
  exists s'. split; [exact Hrun|]. split; [exact (Hkeys "x-a") | exact (Hkeys "x-b")].
Defined.

(** ** Type, etag and message *)

Lemma before_char_free k s : has_char k (before_char k s) = false.
Proof.
  unfold has_char. induction s as [|c r IH]; [reflexivity|].
  cbn [before_char]. destruct (is_char k c) eqn:Ec; [reflexivity|].
  cbn [list_ascii_of_string existsb]. now rewrite Ec.
Qed.

Lemma before_char_prefix k s : String.prefix (before_char k s) s = true.
Proof.
  induction s as [|c r IH]; [reflexivity|].
  cbn [before_char]. destruct (is_char k c); [reflexivity|].
  cbn [String.prefix]. destruct (ascii_dec c c); [assumption | contradiction].
Qed.

Lemma before_char_id k s : has_char k s = false -> before_char k s = s.
Proof.
  unfold has_char. induction s as [|c r IH]; [reflexivity|].
  cbn [list_ascii_of_string existsb before_char]. intros Hn.
  apply orb_false_iff in Hn as [Hc Hr]. rewrite Hc. now rewrite IH.
Qed.

(** X5: the type read after [type = t] is the resolved content type up to
    its first semicolon, so without parameters such as the charset; it is
    the empty string when [t] resolves to no type.  A resolved type with a
    control character, which only a [t] with one gives, is refused by the
    transport: the assignment raises a type error and changes nothing. *)
Theorem set_type_then_get_type (H : Host) (type : string) (s : State) :
  headersSent (res s) = false ->
  match contentType H type with
  | Some full =>
      if valid_text full then
        exists mime s',
          (Response.set_type H type ;; Content.get_type) s = Ok mime s' /\
          has_char 59 mime = false /\
          String.prefix mime full = true /\
          (has_char 59 full = false -> mime = full)
      else
        exists fmt,
          (Response.set_type H type ;; Content.get_type) s
          = Throw (TypeError fmt (VStr "Content-Type")) s
  | None =>
      exists s', (Response.set_type H type ;; Content.get_type) s = Ok "" s'
  end.
Proof.
  intros E. unfold bind, Response.set_type.
  destruct (contentType H type) as [full|].
  - destruct (String.eqb full "") eqn:Hf; cbn [negb].
    + apply String.eqb_eq in Hf. subst full. cbn [valid_text list_ascii_of_string forallb].
      rewrite remove_unsent by assumption.
      unfold Content.get_type. unfold bind. rewrite get_run. mcbn.
      rewrite lookup_delete_eq. cbn. eexists _, _. split; [reflexivity|]. auto.
    + destruct (valid_text full) eqn:V.
      * rewrite set_unsent by (assumption || reflexivity).
        unfold Content.get_type. unfold bind. rewrite get_run. mcbn.
        rewrite lookup_insert_eq. cbn [truthy_header default String_]. unfold id.
        rewrite Hf. cbn [negb]. cbv beta iota. rewrite Hf. cbn [negb].
        eexists _, _. split; [reflexivity|]. split; [apply before_char_free|].
        split; [apply before_char_prefix | apply before_char_id].
      * destruct (set_refused "Content-Type" (One (SStr full)) s E V) as [fmt Hrun].
        exists fmt. now rewrite Hrun.
  - rewrite remove_unsent by assumption.
    unfold Content.get_type. unfold bind. rewrite get_run. mcbn.
    rewrite lookup_delete_eq. cbn. eexists. reflexivity.
Qed.

Lemma is_etag_quoted val :
  is_etag (Response.quote +:+ val +:+ Response.quote) = true.
Proof. reflexivity. Qed.

Lemma valid_text_app (a b : string) :
  valid_text (a +:+ b) = valid_text a && valid_text b.
Proof.
  unfold valid_text. induction a as [|c a IH]; [reflexivity|].
  change (String c a +:+ b) with (String c (a +:+ b)).
  cbn [list_ascii_of_string forallb]. now rewrite IH, andb_assoc.
Qed.

Lemma valid_text_quoted (val : string) :
  valid_text (Response.quote +:+ val +:+ Response.quote) = valid_text val.
Proof.
  rewrite !valid_text_app. change (valid_text Response.quote) with true.
  now rewrite andb_true_r.
Qed.

(** X6: the entity tag read after [etag = val], for a [val] without control
    characters, starts with a double quote or with [W/] and a double quote:
    a value of that form is kept as it is, any other is put between double
    quotes; and setting the tag that was read changes nothing more.  A [val]
    with a control character is refused by the transport: the assignment
    raises a type error and changes nothing. *)
Theorem set_etag_then_get_etag (val : string) (s : State) :
  headersSent (res s) = false ->
  if valid_text val then
    exists tag s',
      (Content.set_etag val ;; Content.get_etag) s = Ok (HStr tag) s' /\
      is_etag tag = true /\
      tag = (if is_etag val then val else Response.quote +:+ val +:+ Response.quote) /\
      (Content.set_etag tag ;; Content.get_etag) s' = Ok (HStr tag) s'
  else
    exists fmt,
      (Content.set_etag val ;; Content.get_etag) s = Throw (TypeError fmt (VStr "ETag")) s.
Proof.
  intros E.
  assert (Hput : forall tag t, headersSent (res t) = false -> is_etag tag = true ->
    valid_text tag = true ->
    (Content.set_etag tag ;; Content.get_etag) t
    = Ok (HStr tag) (with_res (with_headers (insert "etag" (HStr tag))) t)).
  { intros tag t Et Htag Vt. unfold bind, Content.set_etag, Content.get_etag.
    rewrite Htag. cbn [negb]. rewrite set_unsent by (assumption || reflexivity).
    rewrite get_run. mcbn.
    replace (toLowerCase "ETag") with "etag" by reflexivity.
    rewrite lookup_insert_eq. cbn [truthy_header default String_].
    destruct (String.eqb_spec tag "") as [->|]; [discriminate Htag | reflexivity]. }
  destruct (valid_text val) eqn:V.
  - destruct (is_etag val) eqn:Hv.
    + exists val. eexists. split; [now apply Hput|]. split; [assumption|].
      split; [reflexivity|].
      rewrite Hput by (try assumption; unsent).
      f_equal. unfold with_res, with_headers. mcbn.
      change (toLowerCase "ETag") with "etag". now rewrite insert_insert_eq.
    + assert (Vq : valid_text (Response.quote +:+ val +:+ Response.quote) = true)
        by now rewrite valid_text_quoted.
      exists (Response.quote +:+ val +:+ Response.quote). eexists. split.
      * unfold bind, Content.set_etag, Content.get_etag. rewrite Hv. cbn [negb].
        rewrite set_unsent by (assumption || reflexivity). rewrite get_run. mcbn.
        replace (toLowerCase "ETag") with "etag" by reflexivity.
        rewrite lookup_insert_eq. reflexivity.
      * split; [reflexivity|]. split; [reflexivity|].
        rewrite Hput by (try reflexivity; try assumption; unsent).
        f_equal. unfold with_res, with_headers. mcbn.
        change (toLowerCase "ETag") with "etag". now rewrite insert_insert_eq.
  - unfold bind, Content.set_etag.
    assert (Vs : forall tag, valid_text tag = false ->
      valid_name "ETag" && valid_value (stored (One (SStr tag))) = false)
      by (intros tag Vt; exact Vt).
    destruct (is_etag val); cbn [negb].
    + destruct (set_refused "ETag" (One (SStr val)) s E (Vs _ V)) as [fmt Hrun].
      exists fmt. now rewrite Hrun.
    + assert (Vq : valid_text (Response.quote +:+ val +:+ Response.quote) = false)
        by now rewrite valid_text_quoted.
      destruct (set_refused "ETag"
                  (One (SStr (Response.quote +:+ val +:+ Response.quote))) s E (Vs _ Vq))
        as [fmt Hrun].
      exists fmt. now rewrite Hrun.
Qed.

(** X7: after a status is set on a request of HTTP/1.x, [message] is the reason
    phrase the registry has for it; on HTTP/2 the message stays what it was. *)
Theorem set_status_then_get_message (H : Host) (n : Number) (s : State) :
  headersSent (res s) = false ->
  truthy (statuses_at H n) = true ->
  exists before after s',
    Content.get_message s = Ok before s /\
    (Response.set_status H (VNum n) ;; Content.get_message) s = Ok after s' /\
    after = (if httpVersionMajor (req s) <? 2 then statuses_at H n else before).
Proof.
  intros E R. unfold bind, Response.set_status, Response.call_depth.
  assert (Hmsg : statusMessage (res (apply_status H n s))
                 = if httpVersionMajor (req s) <? 2 then statuses_at H n
                   else statusMessage (res s)).
  { unfold apply_status. mcbn. destruct (_ <? _); reflexivity. }
  destruct (truthy (_body s) && empty_at H n) eqn:B.
  - apply andb_prop in B as [B1 B2]. rewrite set_status_nulls by assumption.
    eexists _, _, _. split; [reflexivity|]. split; [reflexivity|].
    mcbn. rewrite drop_stream_res, Hmsg.
    destruct (_ <? _); [now rewrite R | reflexivity].
  - rewrite set_status_plain by assumption.
    eexists _, _, _. split; [reflexivity|]. split; [reflexivity|].
    mcbn. rewrite Hmsg.
    destruct (_ <? _); [now rewrite R | reflexivity].
Qed.

Lemma set_type_then_get_type_witness :
  exists mime s',
    (Response.set_type Sample.host "html" ;; Content.get_type) Sample.fresh_context
    = Ok mime s' /\
    has_char 59 mime = false /\
    String.prefix mime "text/html; charset=utf-8" = true.
Proof.
  destruct (set_type_then_get_type Sample.host "html" Sample.fresh_context eq_refl)
    as (mime & s' & Hrun & Hfree & Hpre & _).
  exists mime, s'. split; [exact Hrun|]. split; [exact Hfree | exact Hpre].
Defined.

Lemma set_etag_then_get_etag_witness :
  exists s',
    (Content.set_etag "abc" ;; Content.get_etag) Sample.fresh_context
    = Ok (HStr (Response.quote +:+ "abc" +:+ Response.quote)) s'.
Proof.
  destruct (set_etag_then_get_etag "abc" Sample.fresh_context eq_refl)
    as (tag & s' & Hrun & _ & Htag & _).
  subst tag. exists s'. exact Hrun.
Defined.

Lemma set_status_then_get_message_witness :
  exists s',
    (Response.set_status Sample.host (VNum (Int 204)) ;; Content.get_message)
      Sample.fresh_context = Ok (VStr "No Content") s'.
Proof.
  destruct (set_status_then_get_message Sample.host (Int 204) Sample.fresh_context
              eq_refl eq_refl) as (before & after & s' & _ & Hrun & Hafter).
  subst after. exists s'. exact Hrun.
Defined.

(** ** The length of the response *)

Lemma digit_pretty_N_char (d : N) :
  (d < 10)%N -> digit (pretty_N_char d) = Some (Z.of_N d).
Proof.
  intros Hd.
  assert (d = 0 \/ d = 1 \/ d = 2 \/ d = 3 \/ d = 4 \/ d = 5 \/ d = 6 \/ d = 7
          \/ d = 8 \/ d = 9)%N as Hc by lia.
  repeat (destruct Hc as [->|Hc]; [reflexivity|]). subst d. reflexivity.
Qed.

Lemma decimal_pretty_N_go (x : N) : forall s v,
  decimal s = Some v ->
  decimal (pretty_N_go x s) = Some (Z.of_N x * 10 ^ Z.of_nat (String.length s) + v).
Proof.
  induction (N.lt_wf_0 x) as [x _ IH]. intros s v Hs.
  destruct (N.eq_dec x 0%N) as [->|Hx].
  - rewrite pretty_N_go_0, Hs. f_equal; lia.
  - rewrite pretty_N_go_step by lia.
    assert (Hd : (x mod 10 < 10)%N) by (apply N.mod_lt; lia).
    rewrite (IH (x / 10)%N) with (v := Z.of_N (x mod 10) * 10 ^ Z.of_nat (String.length s) + v).
    + f_equal. cbn [String.length]. rewrite Nat2Z.inj_succ, Z.pow_succ_r by lia.
      rewrite (N.div_mod x 10) at 3 by lia. rewrite N2Z.inj_add, N2Z.inj_mul.
      change (Z.of_N 10) with 10. ring.
    + apply N.div_lt; lia.
    + cbn [decimal]. now rewrite digit_pretty_N_char, Hs.
Qed.

Lemma decimal_pretty (n : Z) : 0 <= n -> decimal (pretty n) = Some n.
Proof.
  intros Hn. destruct n as [|p|p]; [reflexivity| |lia].
  change (pretty (Z.pos p)) with (pretty (N.pos p)).
  unfold pretty, pretty_N. destruct (decide (N.pos p = 0%N)); [discriminate|].
  rewrite (decimal_pretty_N_go (N.pos p) "" 0) by reflexivity.
  f_equal. cbn [String.length Z.of_nat]. change (Z.of_N (N.pos p)) with (Z.pos p). lia.
Qed.

Lemma to_int32_small (n : Z) : - 2 ^ 31 <= n < 2 ^ 31 -> to_int32 n = n.
Proof. intros Hn. unfold to_int32. rewrite Z.mod_small by lia. lia. Qed.

Section Length.
Context (H : Host) (J : Json).

Lemma get_length_of_header s len :
  res_headers (res s) !! "content-length" = Some len ->
  Content.get_length H J s = Ok (Some (Content.double_tilde J len)) s.
Proof. intros Hl. unfold Content.get_length. mrun. now rewrite Hl. Qed.

Lemma get_length_of_body s :
  res_headers (res s) !! "content-length" = None ->
  Content.get_length H J s
  = Ok (if negb (truthy (_body s)) then None
        else match _body s with
             | VStr str => Some (byteLength H str)
             | VBuffer _ data => Some (Z.of_nat (List.length data))
             | body => if isJSON J body then Some (byteLength H (stringify J body))
                       else None
             end) s.
Proof.
  intros Hl. unfold Content.get_length. mrun. rewrite Hl.
  destruct (negb (truthy (_body s))); [reflexivity|].
  destruct (_body s); try reflexivity; destruct (isJSON J _); reflexivity.
Qed.

Lemma double_tilde_pretty n :
  0 <= n <= 2 ^ 53 -> Content.double_tilde J (HStr (pretty n)) = to_int32 n.
Proof.
  intros Hn. unfold Content.double_tilde. rewrite decimal_pretty by lia.
  destruct (Z.leb_spec n (2 ^ 53)); [reflexivity | lia].
Qed.

(** X8: a length that is set is the length that is read, below [2^31]; from
    [2^31] on (and up to [2^53]) it is read reduced modulo [2^32] into the
    signed 32-bit range, so at [2^31] it reads as [-2^31]. *)
Theorem set_length_then_get_length (n : Z) (s : State) :
  headersSent (res s) = false ->
  0 <= n <= 2 ^ 53 ->
  exists s',
    (Response.set_length n ;; Content.get_length H J) s = Ok (Some (to_int32 n)) s' /\
    (n < 2 ^ 31 -> to_int32 n = n) /\
    (n = 2 ^ 31 -> to_int32 n = - 2 ^ 31).
Proof.
  intros E Hn. unfold bind. rewrite set_length_unsent by assumption.
  rewrite (get_length_of_header _ (HStr (pretty n))) by (mcbn; apply lookup_insert_eq).
  rewrite double_tilde_pretty by assumption.
  eexists. split; [reflexivity|]. split.
  - intros Hs. apply to_int32_small. lia.
  - intros ->. reflexivity.
Qed.

(** X9: the length read after a body is assigned: the byte length of a string,
    the size of a buffer, the byte length of the JSON text of a truthy
    structured value, and nothing for a falsy one. *)
Theorem set_body_then_get_length (v : JsVal) (s : State) :
  truthy (statuses_at H (Int 200)) = true ->
  empty_at H (Int 200) = false ->
  headersSent (res s) = false ->
  nullish v = false ->
  instanceof_Stream v = false ->
  match v with
  | VStr str => 0 <= byteLength H str < 2 ^ 31
  | VBuffer _ data => Z.of_nat (List.length data) < 2 ^ 31
  | _ => True
  end ->
  exists s',
    (Response.set_body H v ;; Content.get_length H J) s
    = Ok match v with
         | VStr str => Some (byteLength H str)
         | VBuffer _ data => Some (Z.of_nat (List.length data))
         | _ => if truthy v && isJSON J v
                then Some (byteLength H (stringify J v)) else None
         end s'.
Proof.
  intros R Em E N St Hsize. unfold bind, Response.set_body, Response.call_depth.
  rewrite set_body_value by (try assumption; right; split; assumption).
  set (s1 := default_status H _).
  assert (Hother : forall o,
    match v with VStr _ | VBuffer _ _ | VStream _ => False | _ => True end ->
    res_headers (res (infer_content H o v s1)) !! "content-length" = None).
  { intros o Hv. unfold infer_content. cbv zeta.
    destruct v; try contradiction; mcbn; apply lookup_delete_eq. }
  destruct v; try discriminate N; try discriminate St.
  - rewrite get_length_of_body by now apply Hother.
    rewrite infer_content_body. unfold s1. rewrite default_status_body. mcbn.
    destruct (truthy (VBool b)); cbn [negb andb]; eexists; reflexivity.
  - rewrite get_length_of_body by now apply Hother.
    rewrite infer_content_body. unfold s1. rewrite default_status_body. mcbn.
    destruct (truthy (VNum n)); cbn [negb andb]; eexists; reflexivity.
  - rewrite (get_length_of_header _ (HStr (pretty (byteLength H s0)))).
    2:{ unfold infer_content. cbv zeta. destruct (negb _); mcbn; apply lookup_insert_eq. }
    rewrite double_tilde_pretty by lia. rewrite to_int32_small by lia.
    eexists. reflexivity.
  - rewrite (get_length_of_header _ (HStr (pretty (Z.of_nat (List.length data))))).
    2:{ unfold infer_content. cbv zeta. destruct (negb _); mcbn; apply lookup_insert_eq. }
    rewrite double_tilde_pretty by lia. rewrite to_int32_small by lia.
    eexists. reflexivity.
  - rewrite get_length_of_body by now apply Hother.
    rewrite infer_content_body. unfold s1. rewrite default_status_body. mcbn.
    eexists. reflexivity.
Qed.
End Length.

Lemma set_length_then_get_length_witness :
  exists s',
    (Response.set_length (2 ^ 31) ;; Content.get_length Sample.host Example.json)
      Sample.fresh_context = Ok (Some (- 2 ^ 31)) s'.
Proof.
  destruct (set_length_then_get_length Sample.host Example.json (2 ^ 31)
              Sample.fresh_context eq_refl ltac:(lia)) as (s' & Hrun & _).
  exists s'. exact Hrun.
Defined.

Lemma set_body_then_get_length_witness :
  exists s',
    (Response.set_body Sample.host (VStr "hello") ;;
     Content.get_length Sample.host Example.json) Sample.fresh_context
    = Ok (Some 5) s'.
Proof.
  apply (set_body_then_get_length Sample.host Example.json (VStr "hello")
           Sample.fresh_context);
    first [reflexivity | vm_compute; split; [discriminate | reflexivity]].
Defined.

(** ** The default response *)

Section Respond.
Context (H : Host) (J : Json).

Lemma remove_any f s :
  exists hs, Response.remove f s = Ok tt (with_res (with_headers (fun _ => hs)) s).
Proof.
  destruct (headersSent (res s)) eqn:E.
  - exists (res_headers (res s)). unfold Response.remove. mrun. rewrite E.
    destruct s as [rq [] ex bd px em ds fn ij]. reflexivity.
  - eexists. rewrite remove_unsent by assumption. reflexivity.
Qed.

Lemma set_any f v s :
  valid_name f = true -> valid_value (stored v) = true ->
  exists hs, Response.set f v s = Ok tt (with_res (with_headers (fun _ => hs)) s).
Proof.
  intros Vn Vv. destruct (headersSent (res s)) eqn:E.
  - exists (res_headers (res s)). unfold Response.set. mrun. rewrite E.
    destruct s as [rq [] ex bd px em ds fn ij]. reflexivity.
  - eexists. rewrite set_unsent by assumption. reflexivity.
Qed.

Lemma set_length_any n s :
  exists hs, Response.set_length n s = Ok tt (with_res (with_headers (fun _ => hs)) s).
Proof. apply set_any; [reflexivity | apply valid_text_pretty]. Qed.

Lemma set_type_any type s :
  valid_text type = true ->
  exists hs, Response.set_type H type s = Ok tt (with_res (with_headers (fun _ => hs)) s).
Proof.
  intros Vt. unfold Response.set_type.
  destruct (contentType H type) as [t|] eqn:Ht; [destruct (negb _)|];
    auto using remove_any.
  apply set_any; [reflexivity | exact (contentType_valid H type t Vt Ht)].
Qed.

(** [body = null] under an empty-body status touches the body, the streams
    and the headers only. *)
Lemma set_body_null_under_empty v s :
  nullish v = true -> empty_at H (statusCode (res s)) = true ->
  exists hs,
    Response.set_body H v s
    = Ok tt (with_res (with_headers (fun _ => hs)) (with_body v (drop_stream v s))).
Proof.
  intros N Em. unfold Response.set_body, Response.call_depth.
  rewrite set_body_fuel_null by assumption.
  unfold bind at 1, gets at 1. unfold bind at 1. rewrite destroy_previous.
  unfold bind at 1, modify at 1. unfold bind at 1, Response.status at 1, gets at 1.
  mcbn. rewrite drop_stream_res, Em. cbn [negb when]. unfold bind at 1, ret at 1.
  set (s1 := with_body v (drop_stream v s)).
  destruct (remove_any "Content-Type" s1) as [h1 H1]. unfold bind at 1. rewrite H1.
  destruct (remove_any "Content-Length" (with_res (with_headers (fun _ => h1)) s1))
    as [h2 H2]. unfold bind at 1. rewrite H2.
  destruct (remove_any "Transfer-Encoding"
              (with_res (with_headers (fun _ => h2))
                 (with_res (with_headers (fun _ => h1)) s1))) as [h3 H3].
  rewrite H3. exists h3. reflexivity.
Qed.

Lemma writable_run s :
  Response.writable s
  = Ok (if finished (res s) then false
        else match socket (res s) with Some w => w | None => true end) s.
Proof. reflexivity. Qed.

(** X10: [respond] writes at most once: it ends the response with one payload,
    or leaves the state as it is (an unwritable response, a stream to pipe),
    or raises before anything is written; the bound on nested calls is not
    met. *)
Theorem respond_commits_once (s : State) :
  match Finalize.respond H J s with
  | Ok Ended s' => exists payload, ended (res s') = (ended (res s) ++ [payload])%list
  | Ok _ s' => s' = s
  | Throw _ s' => ended (res s') = ended (res s)
  | OutOfFuel => False
  end.
Proof.
  unfold Finalize.respond. unfold bind at 1. rewrite writable_run.
  destruct (if finished (res s) then false else _); cbn [negb]; [|reflexivity].
  unfold bind at 1, Response.status at 1, gets at 1.
  destruct (empty_at H (statusCode (res s))) eqn:Em.
  { destruct (set_body_null_under_empty VNull s eq_refl Em) as [hs Hs].
    unfold bind at 1. rewrite Hs. mrun. rewrite drop_stream_res. eauto. }
  unfold bind at 1, gets at 1.
  destruct (String.eqb "HEAD" (method (req s))).
  { unfold bind at 1, Response.body at 1, gets at 1.
    unfold bind at 1, Response.get_headersSent at 1, gets at 1.
    destruct (negb (headersSent (res s)) && isJSON J (_body s)); cbn [when].
    - destruct (set_length_any (byteLength H (stringify J (_body s))) s) as [hs Hs].
      unfold bind at 1. rewrite Hs. mrun. eauto.
    - mrun. eauto. }
  unfold bind at 1, Response.body at 1, gets at 1.
  destruct (nullish (_body s)) eqn:N.
  { unfold bind at 1, Content.get_message at 1, gets at 1.
    set (body := if truthy _ then _ else _).
    unfold bind at 1, Response.get_headersSent at 1, gets at 1.
    destruct (headersSent (res s)) eqn:E; cbn [negb when].
    - unfold bind at 1, ret at 1. unfold bind at 1, end_ at 1.
      destruct (is_chunk body); mrun; eauto.
    - unfold bind at 1. unfold bind at 1. rewrite set_type_unsent by (assumption || reflexivity).
      unfold bind at 1. destruct body; cbn [Ctx.byteLength_of]; try (mrun; reflexivity).
      unfold ret at 1. rewrite set_length_unsent by unsent. mrun. eauto. }
  destruct (_body s) eqn:B; try discriminate N; try (mrun; eauto; fail).
  all: unfold bind at 1, Response.get_headersSent at 1, gets at 1;
    destruct (headersSent (res s)) eqn:E; cbn [negb when];
    [ mrun; eauto
    | unfold bind at 1; rewrite set_length_unsent by assumption; mrun; eauto ].
Qed.

Lemma respond_empty_run (s : State) :
  Response.writable s = Ok true s ->
  empty_at H (statusCode (res s)) = true ->
  exists s',
    Finalize.respond H J s = Ok Ended s' /\
    ended (res s') = (ended (res s) ++ [VUndefined])%list /\
    _body s' = VNull /\ statusCode (res s') = statusCode (res s).
Proof.
  intros W Em. unfold Finalize.respond. unfold bind at 1. rewrite W. cbn [negb].
  unfold bind at 1, Response.status at 1, gets at 1. rewrite Em.
  destruct (set_body_null_under_empty VNull s eq_refl Em) as [hs Hs].
  unfold bind at 1. rewrite Hs. mrun. eexists. split; [reflexivity|].
  mcbn. rewrite drop_stream_res. repeat split.
Qed.



Lemma respond_text_run (s : State) (text : string) :
  Response.writable s = Ok true s ->
  headersSent (res s) = false ->
  empty_at H (statusCode (res s)) = false ->
  method (req s) <> "HEAD" ->
  nullish (_body s) = true ->
  (if truthy (statusMessage (res s)) then statusMessage (res s)
   else VStr (String_number (statusCode (res s)))) = VStr text ->
  exists s',
    Finalize.respond H J s = Ok Ended s' /\
    ended (res s') = (ended (res s) ++ [VStr text])%list /\
    statusCode (res s') = statusCode (res s) /\
    res_headers (res s') !! "content-type" = type_header H "text" /\
    res_headers (res s') !! "content-length" = Some (HStr (pretty (byteLength H text))).
Proof.
  intros W E Em Hm N Ht. unfold Finalize.respond. unfold bind at 1. rewrite W. cbn [negb].
  unfold bind at 1, Response.status at 1, gets at 1. rewrite Em.
  unfold bind at 1, gets at 1.
  apply String.eqb_neq in Hm. rewrite String.eqb_sym in Hm. rewrite Hm.
  unfold bind at 1, Response.body at 1, gets at 1. rewrite N.
  unfold bind at 1, Content.get_message at 1, gets at 1.
  replace (if truthy (if truthy (statusMessage (res s)) then statusMessage (res s)
                      else VStr "")
           then (if truthy (statusMessage (res s)) then statusMessage (res s)
                 else VStr "")
           else VStr (String_number (statusCode (res s)))) with (VStr text).
  2:{ rewrite <- Ht. destruct (truthy (statusMessage (res s))) eqn:T; [now rewrite T|].
      reflexivity. }
  unfold bind at 1, Response.get_headersSent at 1, gets at 1. rewrite E. cbn [negb when].
  unfold bind at 1. unfold bind at 1. rewrite set_type_unsent by (assumption || reflexivity).
  unfold bind at 1. cbn [Ctx.byteLength_of]. unfold ret at 1.
  rewrite set_length_unsent by unsent. mrun.
  eexists. split; [reflexivity|]. split; [reflexivity|]. split; [reflexivity|].
  mcbn. split.
  - rewrite lookup_insert_ne by discriminate. apply lookup_put_header.
  - apply lookup_insert_eq.
Qed.

End Respond.

(** X14: a context that no middleware touched answers 404 with the text [404]:
    no status message was recorded, since the status setter did not run. *)
Theorem untouched_context_answers_404 (H : Host) (J : Json) (trust : bool)
    (rq : IncomingMessage) (rs : ServerResponse) :
  finished rs = false -> socket rs <> Some false -> headersSent rs = false ->
  truthy (statusMessage rs) = false ->
  statuses_empty H 404 = false ->
  method rq <> "HEAD" ->
  exists s',
    Finalize.respond H J (createContext trust rq rs) = Ok Ended s' /\
    statusCode (res s') = Int 404 /\
    ended (res s') = (ended rs ++ [VStr "404"])%list /\
    res_headers (res s') !! "content-type" = type_header H "text".
Proof.
  intros Fi So E Msg Em Hm.
  destruct (respond_text_run H J (createContext trust rq rs) "404")
    as (s' & Hrun & Hend & Hst & Hct & _).
  - rewrite writable_run. unfold createContext. mcbn. rewrite Fi.
    destruct (socket rs) as [[]|]; congruence.
  - assumption.
  - exact Em.
  - exact Hm.
  - reflexivity.
  - unfold createContext. mcbn. now rewrite Msg.
  - exists s'. split; [exact Hrun|]. split; [exact Hst|]. split; [exact Hend | exact Hct].
Qed.




Lemma untouched_context_answers_404_witness :
  exists s',
    Finalize.respond Sample.host Example.json Sample.fresh_context = Ok Ended s' /\
    statusCode (res s') = Int 404 /\
    ended (res s') = [VStr "404"].
Proof.
  destruct (untouched_context_answers_404 Sample.host Example.json false
              Sample.request Sample.response
              eq_refl ltac:(vm_compute; discriminate) eq_refl eq_refl eq_refl
              ltac:(vm_compute; discriminate))
    as (s' & Hrun & Hst & Hend & _).
  exists s'. split; [exact Hrun|]. split; [exact Hst | exact Hend].
Defined.

(** ** From a body to the wire *)

Section Served.
Context (H : Host) (J : Json).

Lemma same_transport_refl s : same_transport s s.
Proof. repeat split. Qed.

Lemma same_transport_trans s1 s2 s3 :
  same_transport s1 s2 -> same_transport s2 s3 -> same_transport s1 s3.
Proof. unfold same_transport. intuition congruence. Qed.

Lemma same_transport_drop_stream v s : same_transport s (drop_stream v s).
Proof.
  unfold same_transport. rewrite drop_stream_req, !drop_stream_res. repeat split.
Qed.

Lemma same_transport_apply_status n s : same_transport s (apply_status H n s).
Proof.
  unfold same_transport, apply_status. mcbn. destruct (_ <? _); repeat split.
Qed.

Lemma same_transport_default_status s : same_transport s (default_status H s).
Proof.
  unfold default_status. destruct (_explicitStatus s);
    [apply same_transport_refl | apply same_transport_apply_status].
Qed.

Lemma same_transport_infer_content o v s : same_transport s (infer_content H o v s).
Proof.
  unfold same_transport, infer_content. cbv zeta.
  destruct (negb (truthy_header _)), v; mcbn;
    try destruct (negb _ && negb _); repeat split.
Qed.

Lemma same_transport_writable s s' :
  same_transport s s' ->
  Response.writable s = Ok true s -> Response.writable s' = Ok true s'.
Proof.
  intros (_ & Fi & So & _ & _). rewrite !writable_run, Fi, So.
  intros Hw. injection Hw as Hw. now rewrite Hw.
Qed.

Lemma respond_verbatim_run (s : State) :
  Response.writable s = Ok true s ->
  empty_at H (statusCode (res s)) = false ->
  method (req s) <> "HEAD" ->
  match _body s with VStr _ | VBuffer _ _ => True | _ => False end ->
  Finalize.respond H J s = (end_ (_body s) ;; ret Ended) s.
Proof.
  intros W Em Hm Hb. unfold Finalize.respond. unfold bind at 1. rewrite W. cbn [negb].
  unfold bind at 1, Response.status at 1, gets at 1. rewrite Em.
  unfold bind at 1, gets at 1.
  apply String.eqb_neq in Hm. rewrite String.eqb_sym in Hm. rewrite Hm.
  unfold bind at 1, Response.body at 1, gets at 1.
  destruct (_body s); try contradiction; reflexivity.
Qed.

(** X15: a string assigned as body on a new context is what the response ends
    with, under status 200 and with its byte length as [Content-Length]. *)
Theorem string_body_is_served (trust : bool) (rq : IncomingMessage)
    (rs : ServerResponse) (str : string) :
  finished rs = false -> socket rs <> Some false -> headersSent rs = false ->
  truthy (statuses_at H (Int 200)) = true ->
  empty_at H (Int 200) = false ->
  method rq <> "HEAD" ->
  exists s',
    (Response.set_body H (VStr str) ;; Finalize.respond H J) (createContext trust rq rs)
    = Ok Ended s' /\
    statusCode (res s') = Int 200 /\
    ended (res s') = (ended rs ++ [VStr str])%list /\
    res_headers (res s') !! "content-length" = Some (HStr (pretty (byteLength H str))).
Proof.
  intros Fi So E R Em Hm.
  set (s0 := createContext trust rq rs).
  assert (W0 : Response.writable s0 = Ok true s0).
  { rewrite writable_run. unfold s0, createContext. mcbn. rewrite Fi.
    destruct (socket rs) as [[]|]; congruence. }
  unfold bind. unfold Response.set_body, Response.call_depth.
  rewrite set_body_value by (try (right; split; assumption); try reflexivity; exact E).
  set (s1 := infer_content H _ _ _).
  assert (T : same_transport s0 s1).
  { unfold s1. eapply same_transport_trans; [|apply same_transport_infer_content].
    eapply same_transport_trans; [|apply same_transport_default_status].
    eapply same_transport_trans; [apply same_transport_drop_stream|].
    repeat split. }
  assert (St : statusCode (res s1) = Int 200).
  { unfold s1. rewrite infer_content_statusCode, default_status_statusCode.
    mcbn. now rewrite drop_stream_explicit. }
  assert (B : _body s1 = VStr str).
  { unfold s1. now rewrite infer_content_body, default_status_body. }
  rewrite respond_verbatim_run.
  - rewrite B. mrun. eexists. split; [reflexivity|]. mcbn.
    destruct T as (_ & _ & _ & _ & En). rewrite En, St.
    split; [reflexivity|]. split; [reflexivity|].
    unfold s1, infer_content. cbv zeta.
    destruct (negb (truthy_header _)); mcbn; apply lookup_insert_eq.
  - now apply (same_transport_writable s0).
  - now rewrite St.
  - destruct T as (Rq & _). now rewrite Rq.
  - now rewrite B.
Qed.

(** X16: a body assigned after an empty-body status is kept with that status,
    and not sent: the response ends without payload and the body is
    cleared. *)
Theorem body_under_empty_status_is_not_sent (trust : bool) (rq : IncomingMessage)
    (rs : ServerResponse) (n : Number) (v : JsVal) :
  finished rs = false -> socket rs <> Some false -> headersSent rs = false ->
  truthy (statuses_at H n) = true ->
  empty_at H n = true ->
  nullish v = false ->
  exists s1 s',
    (Response.set_status H (VNum n) ;; Response.set_body H v) (createContext trust rq rs)
    = Ok tt s1 /\
    statusCode (res s1) = n /\ _body s1 = v /\
    Finalize.respond H J s1 = Ok Ended s' /\
    statusCode (res s') = n /\
    ended (res s') = (ended rs ++ [VUndefined])%list /\
    _body s' = VNull.
Proof.
  intros Fi So E R Em N.
  set (s0 := createContext trust rq rs).
  assert (W0 : Response.writable s0 = Ok true s0).
  { rewrite writable_run. unfold s0, createContext. mcbn. rewrite Fi.
    destruct (socket rs) as [[]|]; congruence. }
  unfold bind. unfold Response.set_status, Response.call_depth.
  rewrite set_status_plain by (try assumption; reflexivity).
  unfold Response.set_body, Response.call_depth.
  rewrite set_body_value
    by (try (left; apply apply_status_explicit); try assumption;
        now rewrite apply_status_headersSent).
  set (s1 := infer_content H _ _ _).
  assert (T : same_transport s0 s1).
  { unfold s1. eapply same_transport_trans; [|apply same_transport_infer_content].
    eapply same_transport_trans; [|apply same_transport_default_status].
    eapply same_transport_trans; [apply same_transport_apply_status|].
    eapply same_transport_trans; [apply same_transport_drop_stream|].
    repeat split. }
  assert (St : statusCode (res s1) = n).
  { unfold s1. rewrite infer_content_statusCode, default_status_statusCode.
    mcbn. rewrite drop_stream_explicit, drop_stream_res.
    now rewrite apply_status_explicit, apply_status_statusCode. }
  assert (B : _body s1 = v).
  { unfold s1. now rewrite infer_content_body, default_status_body. }
  destruct (respond_empty_run H J s1) as (s' & Hrun & He & Hb & Hs).
  - now apply (same_transport_writable s0).
  - now rewrite St.
  - exists s1, s'. split; [reflexivity|]. split; [exact St|]. split; [exact B|].
    split; [exact Hrun|]. split; [now rewrite Hs|]. split; [|exact Hb].
    rewrite He. destruct T as (_ & _ & _ & _ & En). now rewrite En.
Qed.
End Served.

Lemma string_body_is_served_witness :
  exists s',
    (Response.set_body Sample.host (VStr "hello") ;;
     Finalize.respond Sample.host Example.json) Sample.fresh_context = Ok Ended s' /\
    statusCode (res s') = Int 200 /\
    ended (res s') = [VStr "hello"] /\
    res_headers (res s') !! "content-length" = Some (HStr "5").
Proof.
  apply (string_body_is_served Sample.host Example.json false
           Sample.request Sample.response "hello");
    first [reflexivity | vm_compute; discriminate].
Defined.

Lemma body_under_empty_status_is_not_sent_witness :
  exists s1 s',
    (Response.set_status Sample.host (VNum (Int 204)) ;;
     Response.set_body Sample.host (VStr "x")) Sample.fresh_context = Ok tt s1 /\
    statusCode (res s1) = Int 204 /\ _body s1 = VStr "x" /\
    Finalize.respond Sample.host Example.json s1 = Ok Ended s' /\
    statusCode (res s') = Int 204 /\
    ended (res s') = [VUndefined] /\
    _body s' = VNull.
Proof.
  apply (body_under_empty_status_is_not_sent Sample.host Example.json false
           Sample.request Sample.response (Int 204) (VStr "x"));
    first [reflexivity | vm_compute; discriminate].
Defined.
Section ErrorPath.
Context (H : Host).

Lemma drop_stream_emitted v s : emitted (drop_stream v s) = emitted s.
Proof.
  unfold drop_stream. destruct (_ && _); [|reflexivity].
  destruct (_body s); reflexivity.
Qed.

Lemma apply_status_emitted n s : emitted (apply_status H n s) = emitted s.
Proof. unfold apply_status. mcbn. destruct (_ <? _); reflexivity. Qed.

(** What the status setter leaves alone, in every outcome. *)
Lemma set_status_keeps_log code s :
  match Response.set_status H code s with
  | Ok _ s' | Throw _ s' => emitted s' = emitted s /\ ended (res s') = ended (res s)
  | OutOfFuel => False
  end.
Proof.
  unfold Response.set_status, Response.call_depth.
  destruct (headersSent (res s)) eqn:E.
  { rewrite set_status_sent by assumption. split; reflexivity. }
  destruct code as [| |b|n|str|r d|i|i];
    try (rewrite set_status_fuel_eq; mrun; rewrite E; split; reflexivity).
  destruct (truthy (statuses_at H n)) eqn:R.
  - destruct (truthy (_body s) && empty_at H n) eqn:B.
    + apply andb_prop in B as [B1 B2]. rewrite set_status_nulls by assumption.
      mcbn. rewrite drop_stream_emitted, drop_stream_res.
      rewrite apply_status_emitted, apply_status_ended. split; reflexivity.
    + rewrite set_status_plain by assumption.
      rewrite apply_status_emitted, apply_status_ended. split; reflexivity.
  - rewrite set_status_fuel_eq. mrun. rewrite E, R. split; reflexivity.
Qed.

(** The fields are set one after the other: a field the transport refuses
    ends the loop, the fields before it set. *)
Lemma for_each_set_outcome (l : list (string * HeaderArg)) : forall s,
  headersSent (res s) = false ->
  exists hs,
    for_each l (fun kv => Response.set (fst kv) (snd kv)) s
    = Ok tt (with_res (with_headers (fun _ => hs)) s) \/
    exists e,
      for_each l (fun kv => Response.set (fst kv) (snd kv)) s
      = Throw e (with_res (with_headers (fun _ => hs)) s).
Proof.
  induction l as [|[k v] l IH]; intros s E.
  - exists (res_headers (res s)). left.
    destruct s as [rq [] ex bd px em ds fn ij]. reflexivity.
  - cbn [for_each fst snd]. unfold bind.
    destruct (valid_name k && valid_value (stored v)) eqn:V.
    + apply andb_prop in V as [Vk Vv]. rewrite set_unsent by assumption.
      set (s1 := with_res _ s). cbv beta iota.
      destruct (IH s1) as [hs [Hs | [e Hs]]]; [unfold s1; unsent | |];
        exists hs; [left | right; exists e]; rewrite Hs; reflexivity.
    + destruct (set_refused k v s E V) as [fmt Hrun]. rewrite Hrun.
      exists (res_headers (res s)). right. eexists.
      destruct s as [rq [] ex bd px em ds fn ij]. reflexivity.
Qed.

Lemma set_fields_outcome (fields : list (string * HeaderArg)) (s : State) :
  exists hs,
    Response.set_fields fields s = Ok tt (with_res (with_headers (fun _ => hs)) s) \/
    exists e,
      Response.set_fields fields s = Throw e (with_res (with_headers (fun _ => hs)) s).
Proof.
  destruct (headersSent (res s)) eqn:E.
  - exists (res_headers (res s)). left. unfold Response.set_fields. mrun. rewrite E.
    destruct s as [rq [] ex bd px em ds fn ij]. reflexivity.
  - unfold Response.set_fields, bind, Response.get_headersSent, gets.
    rewrite E. now apply for_each_set_outcome.
Qed.

Lemma resolve_status_registered (e : ErrorObj) :
  truthy (statuses_at H (Int 500)) = true ->
  truthy (statuses_at H (Int 404)) = true ->
  truthy (statuses_at H (Ctx.resolve_status H e)) = true.
Proof.
  intros R500 R404. unfold Ctx.resolve_status.
  assert (Hf : truthy (statuses_at H (if Ctx.is_ENOENT (err_code e)
                                      then Int 404 else Int 500)) = true)
    by (destruct (Ctx.is_ENOENT _); assumption).
  destruct (err_status e); try exact Hf.
  destruct (truthy (statuses_at H n)) eqn:Rn; [exact Rn | exact Hf].
Qed.

(** X17: the handler gives every error to the application once, whether or not
    a response can still be written, and marks it when none can, leaving
    the response alone; it does nothing for [null]. *)
Theorem onerror_always_emits (s : State) :
  Ctx.onerror H None s = Ok tt s /\
  forall thrown,
    let committed :=
      headerSent (res s)
      || negb (if finished (res s) then false
               else match socket (res s) with Some w => w | None => true end) in
    match Ctx.onerror H (Some thrown) s with
    | Ok _ s' | Throw _ s' =>
        exists e,
          emitted s' = (emitted s ++ [e])%list /\
          err_headerSent e = (committed || match thrown with
                                           | ThrownError e0 => err_headerSent e0
                                           | ThrownValue _ => false
                                           end) /\
          (committed = true -> res s' = res s /\ _body s' = _body s)
    | OutOfFuel => False
    end.
Proof.
  split; [reflexivity|]. intros thrown committed.
  unfold Ctx.onerror.
  set (error := match thrown with ThrownError e => e | ThrownValue v => _ end).
  unfold bind at 1, gets at 1. unfold bind at 1. rewrite writable_run.
  fold committed. destruct committed eqn:C.
  { mrun. exists (Ctx.mark_headerSent error). repeat split. }
  unfold bind at 1, modify at 1. unfold bind at 1, modify at 1.
  set (s0 := with_res _ (with_emitted error s)).
  assert (Em0 : emitted s0 = (emitted s ++ [error])%list) by reflexivity.
  assert (Hflag : err_headerSent error
                  = (false || match thrown with
                              | ThrownError e0 => err_headerSent e0
                              | ThrownValue _ => false
                              end)) by (destruct thrown; reflexivity).
  destruct (set_fields_outcome (err_headers error) s0) as [hs [Hs | [ex Hs]]].
  2:{ unfold bind at 1. rewrite Hs. exists error.
      split; [reflexivity|]. split; [exact Hflag | discriminate]. }
  unfold bind at 1. rewrite Hs. set (s1 := with_res _ s0).
  assert (Em1 : emitted s1 = (emitted s ++ [error])%list) by reflexivity.
  unfold bind at 1.
  pose proof (set_status_keeps_log (VNum (Ctx.resolve_status H error)) s1) as Hk.
  destruct (Response.set_status H (VNum (Ctx.resolve_status H error)) s1)
    as [[] s2|ex s2|]; [| |contradiction].
  2:{ exists error. destruct Hk as [Hk _]. rewrite Hk, Em1.
      split; [reflexivity|]. split; [exact Hflag | discriminate]. }
  destruct Hk as [Hk _].
  destruct (set_type_any H "text" s2 eq_refl) as [h3 H3]. unfold bind at 1. rewrite H3.
  unfold bind at 1.
  destruct (Ctx.resolve_message H error (Ctx.resolve_status H error)) as [| |b|n|str|r d|i|i];
    cbn [Ctx.byteLength_of];
    try (unfold throw; exists error; mcbn; rewrite Hk, Em1;
         split; [reflexivity|]; split; [exact Hflag | discriminate]).
  unfold ret at 1.
  destruct (set_length_any (byteLength H str)
              (with_res (with_headers (fun _ => h3)) s2)) as [h4 H4].
  unfold bind at 1. rewrite H4. mrun. exists error. rewrite Hk, Em1.
  split; [reflexivity|]. split; [exact Hflag | discriminate].
Qed.

End ErrorPath.


(** ** Host, protocol and address of the request *)

Lemma commas_has_char (s : string) :
  commas (list_ascii_of_string s) = 0%nat -> has_char 44 s = false.
Proof.
  unfold commas, has_char. induction (list_ascii_of_string s) as [|c l IH];
    [reflexivity|].
  cbn [List.filter existsb]. destruct (is_char 44 c); cbn [List.length orb];
    [discriminate | exact IH].
Qed.

Lemma first_piece_no_comma (s : string) : has_char 44 (first_piece s) = false.
Proof.
  unfold first_piece. destruct (split_commas_pieces s) as [_ Hf].
  destruct (split_commas s) as [|p l]; [reflexivity|].
  apply commas_has_char. now inversion Hf.
Qed.

Lemma request_get_run field s :
  Request.get field s
  = Ok (let field := toLowerCase field in
        if String.eqb field "referer" || String.eqb field "referrer" then
          Request.or_else (Request.header_at "referrer" s)
            (Request.or_else (Request.header_at "referer" s) "")
        else Request.or_else (Request.header_at field s) "") s.
Proof. reflexivity. Qed.

Lemma host_run s :
  Origin.host s
  = Ok (let forwarded :=
          if proxy s then Request.header_at "x-forwarded-host" s else "" in
        let h := if String.eqb forwarded "" then Request.header_at "host" s
                 else forwarded in
        if String.eqb h "" then "" else first_piece h) s.
Proof.
  unfold Origin.host. unfold bind at 1, gets at 1. cbv zeta.
  assert (Hor : forall a, Request.or_else a "" = a)
    by (intros a; unfold Request.or_else; destruct (String.eqb_spec a ""); congruence).
  destruct (proxy s).
  - unfold bind at 1. rewrite request_get_run. cbv zeta.
    change (toLowerCase "X-Forwarded-Host") with "x-forwarded-host".
    cbn [String.eqb Ascii.eqb Bool.eqb orb]. rewrite Hor.
    destruct (String.eqb (Request.header_at "x-forwarded-host" s) ""); cbn [negb].
    + unfold bind at 1. rewrite request_get_run. cbv zeta.
      change (toLowerCase "Host") with "host".
      cbn [String.eqb Ascii.eqb Bool.eqb orb]. rewrite Hor.
      unfold ret. destruct (String.eqb _ ""); reflexivity.
    + unfold bind at 1, ret.
      destruct (String.eqb (Request.header_at "x-forwarded-host" s) ""); reflexivity.
  - unfold bind at 1, ret at 1. cbn [String.eqb negb].
    unfold bind at 1. rewrite request_get_run. cbv zeta.
    change (toLowerCase "Host") with "host".
    cbn [String.eqb Ascii.eqb Bool.eqb orb]. rewrite Hor.
    unfold ret. destruct (String.eqb _ ""); reflexivity.
Qed.

Lemma hostname_by_host s h :
  Origin.host s = Ok h s ->
  Origin.hostname s
  = Ok match h with
       | String c _ =>
           if is_char 91 c then default "" (Origin.before_bracket h)
           else before_char 58 h
       | EmptyString => ""
       end s.
Proof.
  intros Hh. unfold Origin.hostname, bind. rewrite Hh.
  destruct h as [|c r]; [reflexivity|]. destruct (is_char 91 c); reflexivity.
Qed.

Lemma string_app_nil_r (a : string) : a +:+ "" = a.
Proof. induction a as [|c a IH]; [reflexivity|]. exact (f_equal (String c) IH). Qed.

Lemma string_app_assoc (a b c : string) : (a +:+ b) +:+ c = a +:+ (b +:+ c).
Proof. induction a as [|x a IH]; [reflexivity|]. exact (f_equal (String x) IH). Qed.

Lemma string_of_list_ascii_app (l1 l2 : list ascii) :
  string_of_list_ascii (l1 ++ l2)
  = string_of_list_ascii l1 +:+ string_of_list_ascii l2.
Proof. induction l1 as [|c l1 IH]; [reflexivity|]. exact (f_equal (String c) IH). Qed.

Lemma string_of_snoc (l : list ascii) (c : ascii) (r : string) :
  string_of_list_ascii (l ++ [c]) +:+ r = string_of_list_ascii l +:+ String c r.
Proof. now rewrite string_of_list_ascii_app, string_app_assoc. Qed.

Lemma prefix_app (a b : string) : String.prefix a (a +:+ b) = true.
Proof.
  induction a as [|c a IH]; [destruct b; reflexivity|].
  change (String c a +:+ b) with (String c (a +:+ b)). cbn [String.prefix].
  destruct (ascii_dec c c); [assumption | contradiction].
Qed.

(** The first piece is the start of the text that was split. *)
Lemma split_go_head_prefix (s : string) : forall tok ws,
  exists p rest,
    split_go s tok ws false = p :: rest /\
    String.prefix p (string_of_list_ascii (rev (ws ++ tok)) +:+ s) = true.
Proof.
  induction s as [|c r IH]; intros tok ws; cbn [split_go].
  - eexists _, _. split; [reflexivity | apply prefix_app].
  - destruct (is_char 44 c).
    + eexists _, _. split; [reflexivity|].
      rewrite List.rev_app_distr, string_of_list_ascii_app, string_app_assoc.
      apply prefix_app.
    + destruct (is_space c).
      * destruct (IH tok (c :: ws)) as (p & rest & Hs & Hp).
        exists p, rest. split; [exact Hs|].
        cbn [List.app rev] in Hp. now rewrite string_of_snoc in Hp.
      * destruct (IH (c :: ws ++ tok)%list []) as (p & rest & Hs & Hp).
        exists p, rest. split; [exact Hs|].
        cbn [List.app rev] in Hp. now rewrite string_of_snoc in Hp.
Qed.

(** A text without a comma is one piece. *)
Lemma split_go_whole (s : string) : forall tok ws,
  has_char 44 s = false ->
  split_go s tok ws false = [string_of_list_ascii (rev (ws ++ tok)) +:+ s].
Proof.
  unfold has_char. induction s as [|c r IH]; intros tok ws Hn; cbn [split_go].
  - now rewrite string_app_nil_r.
  - cbn [list_ascii_of_string existsb] in Hn. apply orb_false_iff in Hn as [Hc Hr].
    rewrite Hc. destruct (is_space c).
    + rewrite IH by assumption. cbn [List.app rev]. now rewrite string_of_snoc.
    + rewrite IH by assumption. cbn [List.app rev]. now rewrite string_of_snoc.
Qed.

Lemma first_piece_prefix (s : string) : String.prefix (first_piece s) s = true.
Proof.
  unfold first_piece, split_commas.
  destruct (split_go_head_prefix s [] []) as (p & rest & Hs & Hp).
  now rewrite Hs.
Qed.

Lemma first_piece_whole (s : string) : has_char 44 s = false -> first_piece s = s.
Proof.
  intros Hn. unfold first_piece, split_commas. now rewrite split_go_whole.
Qed.

Lemma is_char_eq (k : N) (c : ascii) : is_char k c = true -> c = ascii_of_N k.
Proof.
  unfold is_char. intros Hc. apply N.eqb_eq in Hc. subst k.
  now rewrite ascii_N_embedding.
Qed.

(** A text with the character [k] is what comes before it, the character,
    and a rest. *)
Lemma before_char_split (k : N) (s : string) :
  has_char k s = true ->
  exists rest, s = before_char k s +:+ String (ascii_of_N k) rest.
Proof.
  unfold has_char. induction s as [|c r IH]; [discriminate|].
  cbn [list_ascii_of_string existsb before_char]. destruct (is_char k c) eqn:Ec.
  - intros _. exists r. now rewrite (is_char_eq k c Ec).
  - cbn [orb]. intros Hr. destruct (IH Hr) as [rest Hrest].
    exists rest. exact (f_equal (String c) Hrest).
Qed.

Lemma before_bracket_split (s : string) :
  match Origin.before_bracket s with
  | Some r =>
      has_char 93 s = true /\ has_char 93 r = false /\
      exists rest, s = r +:+ String (ascii_of_N 93) rest
  | None => has_char 93 s = false
  end.
Proof.
  unfold has_char. induction s as [|c s IH]; [reflexivity|].
  cbn [Origin.before_bracket list_ascii_of_string existsb].
  destruct (is_char 93 c) eqn:Ec.
  - split; [reflexivity|]. split; [reflexivity|]. exists s.
    now rewrite (is_char_eq 93 c Ec).
  - cbn [orb]. destruct (Origin.before_bracket s) as [r|]; cbn [option_map].
    + destruct IH as (Hs & Hr & rest & Hrest). split; [exact Hs|]. split.
      * cbn [list_ascii_of_string existsb]. now rewrite Ec.
      * exists rest. exact (f_equal (String c) Hrest).
    + exact IH.
Qed.

(** X19: the host is the first piece of its header, which is
    [X-Forwarded-Host] when proxies are trusted and it is not empty, and
    [Host] otherwise: a start of the header without a comma, and the whole
    header when that has no comma.  The host name is the part of the host
    before its first colon (the whole host when it has none), or, for a host
    that starts with a bracket, the part before its first closing bracket
    (nothing when it has none). *)
Theorem hostname_of_host (s : State) :
  let header :=
    if proxy s && negb (String.eqb (Request.header_at "x-forwarded-host" s) "")
    then Request.header_at "x-forwarded-host" s
    else Request.header_at "host" s in
  exists h name,
    Origin.host s = Ok h s /\
    Origin.hostname s = Ok name s /\
    has_char 44 h = false /\
    String.prefix h header = true /\
    (has_char 44 header = false -> h = header) /\
    match h with
    | String c _ =>
        if is_char 91 c then
          if has_char 93 h
          then has_char 93 name = false /\ exists rest, h = name +:+ "]" +:+ rest
          else name = ""
        else
          if has_char 58 h
          then has_char 58 name = false /\ exists rest, h = name +:+ ":" +:+ rest
          else name = h
    | EmptyString => name = ""
    end.
Proof.
  intros header. unfold Origin.hostname, bind. rewrite host_run. cbv zeta.
  replace (if String.eqb (if proxy s then Request.header_at "x-forwarded-host" s else "") ""
           then Request.header_at "host" s
           else if proxy s then Request.header_at "x-forwarded-host" s else "")
    with header
    by (unfold header; destruct (proxy s); [destruct (String.eqb _ "")|]; reflexivity).
  clearbody header.
  set (h := if String.eqb header "" then "" else first_piece header).
  assert (Hc : has_char 44 h = false).
  { unfold h. destruct (String.eqb _ ""); [reflexivity | apply first_piece_no_comma]. }
  assert (Hp : String.prefix h header = true).
  { unfold h. destruct (String.eqb_spec header "") as [He|He];
      [now rewrite He | apply first_piece_prefix]. }
  assert (Hw : has_char 44 header = false -> h = header).
  { intros Hn. unfold h. destruct (String.eqb_spec header "") as [He|He];
      [now rewrite He | now apply first_piece_whole]. }
  clearbody h. destruct h as [|c r].
  - exists "", "". repeat split; assumption.
  - exists (String c r). destruct (is_char 91 c) eqn:Eb.
    + pose proof (before_bracket_split (String c r)) as Hb.
      eexists. split; [reflexivity|]. split; [reflexivity|].
      split; [assumption|]. split; [assumption|]. split; [assumption|].
      destruct (Origin.before_bracket (String c r)) as [name|]; cbn [default]; unfold id.
      * destruct Hb as (Hs & Hr & rest & Hrest). rewrite Hs.
        split; [exact Hr|]. exists rest. exact Hrest.
      * now rewrite Hb.
    + eexists. split; [reflexivity|]. split; [reflexivity|].
      split; [assumption|]. split; [assumption|]. split; [assumption|].
      destruct (has_char 58 (String c r)) eqn:Hcolon.
      * split; [apply before_char_free|]. now apply before_char_split.
      * now apply before_char_id.
Qed.

(** X20: without proxy trust the [X-Forwarded-*] headers change nothing: host,
    host name, protocol and address are those of the same request without
    these headers, whatever they hold. *)
Theorem forwarded_headers_need_trust (s : State) (encrypted : bool)
    (fhost fproto ffor : string) :
  proxy s = false ->
  let forged :=
    Origin.with_req_headers
      (<["x-forwarded-host" := fhost]>
         (<["x-forwarded-proto" := fproto]>
            (<["x-forwarded-for" := ffor]> (req_headers (req s))))) s in
  returned (Origin.host forged) = returned (Origin.host s) /\
  returned (Origin.hostname forged) = returned (Origin.hostname s) /\
  returned (Origin.protocol encrypted forged) = returned (Origin.protocol encrypted s) /\
  returned (Origin.ip forged) = returned (Origin.ip s) /\
  returned (Origin.ip s)
  = Some (if truthy (remoteAddress (req s)) then remoteAddress (req s) else VStr "").
Proof.
  intros P forged.
  assert (Hh : exists h, Origin.host forged = Ok h forged /\ Origin.host s = Ok h s).
  { eexists. split; [|apply host_run]. rewrite host_run. cbv zeta.
    unfold forged, Origin.with_req_headers. mcbn.
    rewrite P. cbn [String.eqb]. unfold Request.header_at. mcbn.
    now rewrite !lookup_insert_ne by discriminate. }
  destruct Hh as (h & Hf & Hs).
  split; [now rewrite Hf, Hs|]. split.
  { now rewrite (hostname_by_host forged h Hf), (hostname_by_host s h Hs). }
  split.
  { unfold Origin.protocol. destruct encrypted; [reflexivity|].
    unfold bind, gets. unfold forged, Origin.with_req_headers. mcbn. rewrite P.
    reflexivity. }
  unfold Origin.ip, Request.ips, bind, gets. unfold forged, Origin.with_req_headers.
  mcbn. rewrite P. cbn [negb]. unfold ret. cbn [returned]. split; reflexivity.
Qed.

Lemma forwarded_headers_need_trust_witness :
  returned (Origin.host Example.forged_context)
  = returned (Origin.host Sample.fresh_context) /\
  returned (Origin.protocol false Example.forged_context) = Some "http" /\
  returned (Origin.ip Example.forged_context) = Some (VStr "10.0.0.7").
Proof.
  destruct (forwarded_headers_need_trust Sample.fresh_context false
              "evil.example" "https" "1.2.3.4" eq_refl)
    as (Hhost & _ & Hproto & Hip & Hsock).
  split; [exact Hhost|]. split.
  - exact (eq_trans Hproto eq_refl).
  - exact (eq_trans Hip Hsock).
Defined.

(** ** The referrer *)

(** X23: the request header [Referer] is read under both spellings, in any case:
    the value of [referrer] when the request has a non-empty one, and that of
    [referer] otherwise.  Reading changes nothing. *)
Theorem referrer_spellings_interchangeable (field : string) (s : State) :
  toLowerCase field = "referer" \/ toLowerCase field = "referrer" ->
  Request.get field s = Request.get "Referrer" s /\
  Request.get field s = Request.get "Referer" s /\
  exists v,
    Request.get field s = Ok v s /\
    v = match req_headers (req s) !! "referrer" with
        | Some (String c r) => String c r
        | _ => default "" (req_headers (req s) !! "referer")
        end.
Proof.
  intros Hf. rewrite !request_get_run. cbv zeta.
  change (toLowerCase "Referrer") with "referrer".
  change (toLowerCase "Referer") with "referer".
  assert (Hb : String.eqb (toLowerCase field) "referer"
               || String.eqb (toLowerCase field) "referrer" = true)
    by (destruct Hf as [-> | ->]; reflexivity).
  rewrite Hb. split; [reflexivity|]. split; [reflexivity|].
  eexists. split; [reflexivity|].
  unfold Request.or_else, Request.header_at.
  destruct (req_headers (req s) !! "referrer") as [[|c r]|]; cbn [default String.eqb];
    unfold id; destruct (req_headers (req s) !! "referer") as [[|c' r']|]; reflexivity.
Qed.

Lemma referrer_spellings_interchangeable_witness :
  Request.get "REFERER" (createContext false Sample.referred_request Sample.response)
  = Ok "/prev" (createContext false Sample.referred_request Sample.response).
Proof.
  destruct (referrer_spellings_interchangeable "REFERER"
              (createContext false Sample.referred_request Sample.response)
              (or_introl eq_refl)) as (_ & _ & v & Hrun & Hv).
  rewrite Hrun, Hv. reflexivity.
Defined.

(** ** The application *)

Lemma use_all_app fns1 fns2 app :
  Application.use_all (fns1 ++ fns2)%list app
  = match Application.use_all fns1 app with
    | inl e => inl e
    | inr app' => Application.use_all fns2 app'
    end.
Proof.
  revert app. induction fns1 as [|fn fns1 IH]; intros app; [reflexivity|].
  cbn [Application.use_all List.app]. destruct (Application.use fn app); [reflexivity | apply IH].
Qed.

(** X21: chained calls of [use] register the functions in the order of the
    calls, after those registered before, and change no setting; a value
    that is not a function makes the chain raise a type error. *)
Theorem use_keeps_order (fns : list Middleware) (app : App) :
  if forallb Application.is_fn fns then
    exists app',
      Application.use_all fns app = inr app' /\
      middlewares app' = (middlewares app ++ fns)%list /\
      app_proxy app' = app_proxy app /\ silent app' = silent app /\
      stderr app' = stderr app
  else
    exists v, In (NotFn v) fns /\
      Application.use_all fns app = inl (TypeError "middleware must be a function!" v).
Proof.
  revert app. induction fns as [|fn fns IH]; intros app.
  - cbn. exists app. rewrite List.app_nil_r. repeat split.
  - cbn [forallb Application.use_all]. destruct fn as [id name _name|v]; cbn [Application.is_fn andb].
    + cbn [Application.use]. specialize (IH (mkApp (middlewares app ++ [Fn id name _name])
        (app_proxy app) (silent app) (stderr app))).
      destruct (forallb Application.is_fn fns).
      * destruct IH as (app' & Hrun & Hm & Hp & Hs & He). exists app'.
        split; [exact Hrun|]. cbn in Hm, Hp, Hs, He.
        rewrite Hm, <- List.app_assoc. repeat split; assumption.
      * destruct IH as (v & Hin & Hrun). exists v. split; [now right | exact Hrun].
    + exists v. split; [now left | reflexivity].
Qed.

Lemma lines_nonempty msg : Application.lines msg <> [].
Proof.
  destruct msg as [|c r]; [discriminate|]. cbn [Application.lines].
  destruct (is_char 10 c || is_char 13 c); [discriminate|].
  destruct (Application.lines r); discriminate.
Qed.

Lemma lines_two_spaces msg :
  Application.lines ("  " +:+ msg)
  = match Application.lines msg with
    | l :: ls => ("  " +:+ l) :: ls
    | [] => ["  "]
    end.
Proof.
  change ("  " +:+ msg) with (String " " (String " " msg)).
  cbn [Application.lines is_char N_of_ascii N.eqb Pos.eqb orb Ascii.ascii_of_N].
  cbn. destruct (Application.lines msg); reflexivity.
Qed.

Lemma lines_indent_rest msg :
  Application.lines (Application.indent_rest msg)
  = match Application.lines msg with
    | l :: ls => l :: map (String.append "  ") ls
    | [] => []
    end.
Proof.
  induction msg as [|c r IH]; [reflexivity|].
  cbn [Application.indent_rest Application.lines].
  destruct (is_char 10 c || is_char 13 c) eqn:Et.
  - cbn [Application.lines]. rewrite Et.
    rewrite lines_two_spaces, IH. pose proof (lines_nonempty r).
    destruct (Application.lines r); [contradiction | reflexivity].
  - cbn [Application.lines]. rewrite Et, IH. pose proof (lines_nonempty r).
    destruct (Application.lines r); [contradiction | reflexivity].
Qed.

(** X22: the default error handler prints nothing for an error that is exposed
    or when the application is silent.  Otherwise it prints a blank line,
    the stack (or the rendering of the error when it has no stack) with
    two spaces put before each of its lines, and a blank line.  It changes
    nothing else. *)
Theorem onerror_prints_indented_stack (e : ErrorObj) (stack : option string)
    (rendered : string) (app : App) :
  exists app',
    Application.onerror (ThrownError e) stack rendered app = inr app' /\
    middlewares app' = middlewares app /\ silent app' = silent app /\
    app_proxy app' = app_proxy app /\
    if truthy (err_expose e) || silent app then stderr app' = stderr app
    else
      exists printed,
        stderr app' = (stderr app ++ [""; printed; ""])%list /\
        Application.lines printed
        = map (String.append "  ")
              (Application.lines
                 match stack with
                 | Some (String c r) => String c r
                 | _ => rendered
                 end).
Proof.
  unfold Application.onerror.
  destruct (truthy (err_expose e)); cbn [orb].
  - exists app. repeat split.
  - destruct (silent app) eqn:Hs.
    + exists app. rewrite Hs. repeat split.
    + eexists. split; [reflexivity|]. cbn [middlewares silent app_proxy stderr].
      split; [reflexivity|]. split; [reflexivity|]. split; [reflexivity|].
      eexists. split; [reflexivity|].
      replace (Request.or_else (default "" stack) rendered)
        with (match stack with Some (String c r) => String c r | _ => rendered end)
        by (destruct stack as [[|c r]|]; reflexivity).
      set (msg := match stack with Some (String c r) => String c r | _ => rendered end).
      unfold Application.indent.
      rewrite lines_two_spaces, lines_indent_rest.
      pose proof (lines_nonempty msg).
      destruct (Application.lines msg); [contradiction | reflexivity].
Qed.
